(** * csv-query-engine: the data-preparation scripts

    A shallow embedding of
      - [scripts/download-real-data.py]          (the single-list extractor),
      - [scripts/download-comprehensive-data.py] (the five-sector extractor),
      - [create-test-pdf.py]                     (the document synthesizer),
    and the properties their specification states about them.

    Conventions of the embedding:
      - a table cell is a numpy [float64]: an IEEE-754 binary64 value, here
        [spec_float] with the Standard Library's [SFdiv]/[SFmul] at precision
        53 and maximal exponent 1024;
      - a Python local that is [None] or a cell is an [option float64];
      - a record (a Python [dict] literal) is an association list from field
        name to [PyVal], in the order of the literal;
      - an exception is [Raise e] in the [result] monad; [try ... except
        Exception: continue] is a match on the result;
      - the module-level lists ([all_data], [tech_data], ...) are threaded
        through the loops as an accumulator. *)

From Stdlib Require Import ZArith List String Ascii Bool Lia.
From Stdlib Require Import SpecFloat DecimalString.
From Stdlib Require Import Sorting.Sorted Sorting.Permutation.
Import ListNotations.

Local Open Scope string_scope.
Local Open Scope Z_scope.

(** ** Python values *)

Module Py.

(** numpy.float64 *)
Definition float64 : Type := spec_float.

Definition prec : Z := 53.
Definition emax : Z := 1024.

Definition nan : float64 := S754_nan.
Definition inf : float64 := S754_infinity false.

(** [x / y] on numpy scalars: IEEE division; a zero divisor gives an
    infinity or a NaN (with a RuntimeWarning), never an exception. *)
Definition truediv (x y : float64) : float64 := SFdiv prec emax x y.

Definition mul (x y : float64) : float64 := SFmul prec emax x y.

Definition isnan (x : float64) : bool :=
  match x with S754_nan => true | _ => false end.

Definition iszero (x : float64) : bool :=
  match x with S754_zero _ => true | _ => false end.

(** The exceptions the scripts can meet. *)
Inductive exn : Type :=
| KeyError
| ValueError
| OverflowError
| NotImplementedError
| ProviderError.

Inductive result (A : Type) : Type :=
| Ok (a : A)
| Raise (e : exn).
Arguments Ok {A} a.
Arguments Raise {A} e.

Definition bind {A B : Type} (m : result A) (k : A -> result B) : result B :=
  match m with
  | Ok a => k a
  | Raise e => Raise e
  end.

(** What a field of a record can hold. *)
Inductive PyVal : Type :=
| PNone
| PStr (s : string)
| PInt (z : Z)
| PFloat (x : float64).

(** [bool(v)] for a local that is [None] or a numpy float: [None] and
    the two zeros are falsy, everything else (NaN included) is truthy. *)
Definition truthy (v : option float64) : bool :=
  match v with
  | None => false
  | Some x => negb (iszero x)
  end.

(** [pd.notna(v)] *)
Definition notna (v : option float64) : bool :=
  match v with
  | None => false
  | Some x => negb (isnan x)
  end.

(** [int(x)]: truncation toward zero of the value [(-1)^s * m * 2^e];
    [int(inf)] raises OverflowError and [int(nan)] ValueError. *)
Definition int (x : float64) : result Z :=
  match x with
  | S754_zero _ => Ok 0
  | S754_infinity _ => Raise OverflowError
  | S754_nan => Raise ValueError
  | S754_finite s m e =>
      Ok (Z.quot (cond_Zopp s (Zpos m) * 2 ^ Z.max 0 e) (2 ^ Z.max 0 (- e)))
  end.

(** [str(n)] for an int *)
Definition str (n : Z) : string := NilZero.string_of_int (Z.to_int n).

(** [s.zfill(w)] for an unsigned numeral *)
Fixpoint pad (k : nat) (s : string) : string :=
  match k with
  | O => s
  | S k' => String "0" (pad k' s)
  end.

Definition zfill (w : nat) (s : string) : string :=
  pad (w - String.length s) s.

End Py.

Export Py.

Notation "x <- m ;; k" := (bind m (fun x => k))
  (at level 61, m at next level, right associativity).

(** ** pandas: timestamps and statement tables *)

Module Pandas.

(** A column label of a statement table: a [Timestamp] (a calendar
    date: its month and day are those of a date), or [NaT]. *)
Inductive Timestamp : Type :=
| Stamp (year month day : Z)
| NaT.

Definition Timestamp_eqb (a b : Timestamp) : bool :=
  match a, b with
  | Stamp y m d, Stamp y' m' d' => (y =? y') && (m =? m') && (d =? d')
  | NaT, NaT => true
  | _, _ => false
  end.

(** [ts.year]: an int, and NaN on [NaT]. *)
Definition year (ts : Timestamp) : PyVal :=
  match ts with
  | Stamp y _ _ => PInt y
  | NaT => PFloat nan
  end.

(** [f"Q{(ts.month - 1) // 3 + 1}"]; [NaT.month] is NaN, which
    formats as [nan]. *)
Definition quarter_label (ts : Timestamp) : string :=
  match ts with
  | Stamp _ m _ => "Q" ++ str ((m - 1) / 3 + 1)
  | NaT => "Qnan"
  end.

(** [ts.strftime('%Y-%m-%d')].  The timestamp is formatted through
    the standard [datetime], which has the years 1 to 9999: outside them
    strftime is a NotImplementedError.  The year is written as it is,
    without padding (a year 999 gives [999-05-31]), the month and the
    day on two digits.  NaT does not support strftime: a ValueError. *)
Definition strftime (ts : Timestamp) : result string :=
  match ts with
  | Stamp y m d =>
      if (1 <=? y) && (y <=? 9999) then
        Ok (str y ++ "-" ++ zfill 2 (str m) ++ "-" ++ zfill 2 (str d))
      else Raise NotImplementedError
  | NaT => Raise ValueError
  end.

(** A statement table: row labels, period columns (in the provider's
    order) and the cells, row by row.  A cell that [values] does not
    list is NaN, as pandas fills a ragged frame.  A label can occur more
    than once on either axis. *)
Record DataFrame : Type := mkDataFrame {
  index : list string;
  columns : list Timestamp;
  values : list (list float64)
}.

(** [df.empty]: some axis has length 0. *)
Definition empty (df : DataFrame) : bool :=
  (Nat.eqb (List.length (index df)) 0) || (Nat.eqb (List.length (columns df)) 0).

(** [label in df.index] *)
Definition in_index (label : string) (df : DataFrame) : bool :=
  existsb (String.eqb label) (index df).

(** The positions of [x] in [l], in increasing order. *)
Fixpoint positions {A : Type} (eqb : A -> A -> bool) (x : A) (l : list A)
  : list nat :=
  match l with
  | [] => []
  | y :: l' =>
      if eqb x y then O :: map S (positions eqb x l')
      else map S (positions eqb x l')
  end.

(** [df.loc[label, col]], as the scripts use its result.  A label that
    is on neither axis is a KeyError.  A label that occurs once on each
    axis gives the cell.  On a label that occurs more than once pandas
    returns a Series (or a frame) instead of a cell; the scripts pass
    every value they look up to [pd.notna] in the condition of its
    field, before the record is appended, and the truth value of a
    Series is a ValueError.  Nothing happens to the accumulated records
    between the lookup and that test, and the handler is the same: the
    ValueError is raised here, at the lookup. *)
Definition loc (df : DataFrame) (label : string) (col : Timestamp)
  : result float64 :=
  match positions String.eqb label (index df),
        positions Timestamp_eqb col (columns df) with
  | [], _ => Raise KeyError
  | _, [] => Raise KeyError
  | [i], [j] => Ok (nth j (nth i (values df) []) nan)
  | _, _ => Raise ValueError
  end.

(** [df.loc[label, col] if label in df.index else None] *)
Definition item (df : DataFrame) (label : string) (col : Timestamp)
  : result (option float64) :=
  if in_index label df then x <- loc df label col ;; Ok (Some x)
  else Ok None.

(** [df.loc[label, col] if df is not None and label in df.index else None] *)
Definition item_opt (df : option DataFrame) (label : string) (col : Timestamp)
  : result (option float64) :=
  match df with
  | Some t => item t label col
  | None => Ok None
  end.

End Pandas.

Export Pandas.

(** ** Records *)

(** One record: the dict literal, key by key. *)
Definition Row : Type := list (string * PyVal).

(** [row[key]] *)
Fixpoint get (key : string) (row : Row) : option PyVal :=
  match row with
  | [] => None
  | (k, v) :: row' => if String.eqb key k then Some v else get key row'
  end.

(** [row.keys()] *)
Definition keys (row : Row) : list string := map fst row.

(** [int(v) if pd.notna(v) else None] *)
Definition int_or_none (v : option float64) : result PyVal :=
  if notna v then
    match v with
    | Some x => z <- int x ;; Ok (PInt z)
    | None => Ok PNone
    end
  else Ok PNone.

(** [float(v) if pd.notna(v) else None] *)
Definition float_or_none (v : option float64) : PyVal :=
  if notna v then
    match v with
    | Some x => PFloat x
    | None => PNone
    end
  else PNone.

(** [(num / den) if den and num else None] *)
Definition margin (num den : option float64) : option float64 :=
  if truthy den && truthy num then
    match num, den with
    | Some n, Some d => Some (truediv n d)
    | _, _ => None
    end
  else None.

(** [float(num / den) if den and num else None] *)
Definition ratio_or_none (num den : option float64) : PyVal :=
  if truthy den && truthy num then
    match num, den with
    | Some n, Some d => PFloat (truediv n d)
    | _, _ => PNone
    end
  else PNone.

(** ** The market-data provider *)

(** [yf.Ticker(t)]: the three quarterly tables are fetched when the
    attribute is read; each read can fail, and each table can be [None]. *)
Record Ticker : Type := mkTicker {
  quarterly_income_stmt : result (option DataFrame);
  quarterly_balance_sheet : result (option DataFrame);
  quarterly_cashflow : result (option DataFrame)
}.

Definition Provider : Type := string -> result Ticker.

(** ** The loop shared by the six extractions

    Every extraction is the same pair of nested loops:
<<
    for ticker, name in companies.items():
        try:
            <fetch>
            if income is None or income.empty: continue
            for col in income.columns[:window]:
                try:
                    data.append(<record>)
                except Exception: continue
        except Exception: continue
>>
    [fetch] reads the tables the variant reads, [build] evaluates the
    body of the inner [try] up to the argument of [append]. *)

Section Extraction.

Context {Aux : Type}.
Variable window : nat.
Variable fetch : string -> result (option DataFrame * Aux).
Variable build : string -> string -> DataFrame -> Aux -> Timestamp -> result Row.

Fixpoint for_periods (ticker name : string) (income : DataFrame) (aux : Aux)
    (cols : list Timestamp) (data : list Row) : list Row :=
  match cols with
  | [] => data
  | col :: cols' =>
      match build ticker name income aux col with
      | Ok row => for_periods ticker name income aux cols' (data ++ [row])
      | Raise _ => for_periods ticker name income aux cols' data
      end
  end.

Definition for_ticker (ticker name : string) (data : list Row) : list Row :=
  match fetch ticker with
  | Raise _ => data
  | Ok (None, _) => data
  | Ok (Some income, aux) =>
      if empty income then data
      else for_periods ticker name income aux
             (firstn window (columns income)) data
  end.

Fixpoint for_tickers (companies : list (string * string)) (data : list Row)
  : list Row :=
  match companies with
  | [] => data
  | (ticker, name) :: companies' =>
      for_tickers companies' (for_ticker ticker name data)
  end.

End Extraction.

(** ** scripts/download-real-data.py *)

Module RealData.

Definition companies : list (string * string) :=
  [ ("AAPL", "Apple Inc");
    ("MSFT", "Microsoft Corporation");
    ("GOOGL", "Alphabet Inc");
    ("AMZN", "Amazon.com Inc");
    ("TSLA", "Tesla Inc");
    ("JPM", "JPMorgan Chase");
    ("JNJ", "Johnson & Johnson");
    ("V", "Visa Inc");
    ("WMT", "Walmart Inc");
    ("PG", "Procter & Gamble") ].

(** Lines 34-39: the ticker and its three tables. *)
Definition fetch (yf : Provider) (ticker : string)
  : result (option DataFrame * (option DataFrame * option DataFrame)) :=
  stock <- yf ticker ;;
  quarterly_income <- quarterly_income_stmt stock ;;
  quarterly_balance <- quarterly_balance_sheet stock ;;
  quarterly_cashflow <- quarterly_cashflow stock ;;
  Ok (quarterly_income, (quarterly_balance, quarterly_cashflow)).

(** Lines 58-64: the explicit row when the table has one, else the
    operating income. *)
Definition ebitda_of (quarterly_income : DataFrame) (col : Timestamp)
    (operating_income : option float64) : result (option float64) :=
  if in_index "EBITDA" quarterly_income then
    x <- loc quarterly_income "EBITDA" col ;; Ok (Some x)
  else
    match operating_income with
    | Some x => Ok (Some x)
    | None => Ok None
    end.

(** Lines 48-97: one period, up to the [row] that is appended. *)
Definition record (ticker company_name : string) (quarterly_income : DataFrame)
    (aux : option DataFrame * option DataFrame) (col : Timestamp)
  : result Row :=
  let quarterly_balance := fst aux in
  let quarterly_cashflow := snd aux in
  let quarter_date := col in
  let year := Pandas.year quarter_date in
  let quarter := quarter_label quarter_date in
  revenue <- item quarterly_income "Total Revenue" col ;;
  gross_profit <- item quarterly_income "Gross Profit" col ;;
  operating_income <- item quarterly_income "Operating Income" col ;;
  net_income <- item quarterly_income "Net Income" col ;;
  ebitda <- ebitda_of quarterly_income col operating_income ;;
  total_assets <- item_opt quarterly_balance "Total Assets" col ;;
  total_debt <- item_opt quarterly_balance "Total Debt" col ;;
  operating_cashflow <- item_opt quarterly_cashflow "Operating Cash Flow" col ;;
  free_cashflow <- item_opt quarterly_cashflow "Free Cash Flow" col ;;
  let gross_margin := margin gross_profit revenue in
  let operating_margin := margin operating_income revenue in
  let net_margin := margin net_income revenue in
  date <- strftime quarter_date ;;
  f_revenue <- int_or_none revenue ;;
  f_gross_profit <- int_or_none gross_profit ;;
  f_ebitda <- int_or_none ebitda ;;
  f_operating_income <- int_or_none operating_income ;;
  f_net_income <- int_or_none net_income ;;
  f_total_assets <- int_or_none total_assets ;;
  f_total_debt <- int_or_none total_debt ;;
  f_operating_cashflow <- int_or_none operating_cashflow ;;
  f_free_cashflow <- int_or_none free_cashflow ;;
  Ok [ ("Company", PStr company_name);
       ("Ticker", PStr ticker);
       ("Quarter", PStr quarter);
       ("Year", year);
       ("Date", PStr date);
       ("Revenue", f_revenue);
       ("Gross_Profit", f_gross_profit);
       ("EBITDA", f_ebitda);
       ("Operating_Income", f_operating_income);
       ("Net_Income", f_net_income);
       ("Total_Assets", f_total_assets);
       ("Total_Debt", f_total_debt);
       ("Operating_Cashflow", f_operating_cashflow);
       ("Free_Cashflow", f_free_cashflow);
       ("Gross_Margin", float_or_none gross_margin);
       ("Operating_Margin", float_or_none operating_margin);
       ("Net_Margin", float_or_none net_margin) ].

(** Last 8 quarters. *)
Definition window : nat := 8.

(** Lines 28-108: [all_data] after the loop over [companies]. *)
Definition all_data (yf : Provider) : list Row :=
  for_tickers window (fetch yf) record companies [].

(** *** [df.sort_values(['Company', 'Year', 'Quarter'])] *)

Definition sort_key (row : Row) : string * Z * string :=
  (match get "Company" row with Some (PStr s) => s | _ => EmptyString end,
   match get "Year" row with Some (PInt y) => y | _ => 0 end,
   match get "Quarter" row with Some (PStr s) => s | _ => EmptyString end).

(** Lexicographic order on (company, year, quarter); strings compare
    character by character, as Python's do. *)
Definition key_leb (a b : string * Z * string) : bool :=
  match String.compare (fst (fst a)) (fst (fst b)) with
  | Lt => true
  | Gt => false
  | Eq =>
      match Z.compare (snd (fst a)) (snd (fst b)) with
      | Lt => true
      | Gt => false
      | Eq => String.leb (snd a) (snd b)
      end
  end.

Definition row_leb (a b : Row) : bool := key_leb (sort_key a) (sort_key b).

(** The multi-key sort is stable; a stable sort is a function of its
    input, here computed by insertion. *)
Fixpoint insert_row (r : Row) (l : list Row) : list Row :=
  match l with
  | [] => [r]
  | x :: l' => if row_leb r x then r :: x :: l' else x :: insert_row r l'
  end.

Fixpoint stable_sort (l : list Row) : list Row :=
  match l with
  | [] => []
  | r :: l' => insert_row r (stable_sort l')
  end.

(** A frame built from no records has no columns: sorting it by
    ['Company'] is a KeyError. *)
Definition sort_values (df : list Row) : result (list Row) :=
  match df with
  | [] => Raise KeyError
  | _ => Ok (stable_sort df)
  end.

(** Lines 114-121: the rows handed to [to_csv]. *)
Definition main (yf : Provider) : result (list Row) :=
  let df := all_data yf in
  df <- sort_values df ;;
  Ok df.

End RealData.

(** ** scripts/download-comprehensive-data.py *)

Module Comprehensive.

Definition tech_companies : list (string * string) :=
  [ ("AAPL", "Apple Inc");
    ("MSFT", "Microsoft Corporation");
    ("GOOGL", "Alphabet Inc");
    ("META", "Meta Platforms");
    ("NVDA", "NVIDIA Corporation");
    ("ORCL", "Oracle Corporation");
    ("ADBE", "Adobe Inc");
    ("CRM", "Salesforce Inc");
    ("INTC", "Intel Corporation");
    ("AMD", "Advanced Micro Devices") ].

Definition healthcare_companies : list (string * string) :=
  [ ("JNJ", "Johnson & Johnson");
    ("UNH", "UnitedHealth Group");
    ("PFE", "Pfizer Inc");
    ("ABBV", "AbbVie Inc");
    ("TMO", "Thermo Fisher Scientific");
    ("ABT", "Abbott Laboratories");
    ("MRK", "Merck & Co");
    ("LLY", "Eli Lilly") ].

Definition financial_companies : list (string * string) :=
  [ ("JPM", "JPMorgan Chase");
    ("BAC", "Bank of America");
    ("WFC", "Wells Fargo");
    ("GS", "Goldman Sachs");
    ("MS", "Morgan Stanley");
    ("C", "Citigroup");
    ("BLK", "BlackRock");
    ("AXP", "American Express") ].

Definition consumer_companies : list (string * string) :=
  [ ("AMZN", "Amazon.com Inc");
    ("WMT", "Walmart Inc");
    ("HD", "Home Depot");
    ("NKE", "Nike Inc");
    ("MCD", "McDonalds Corporation");
    ("SBUX", "Starbucks Corporation");
    ("TGT", "Target Corporation");
    ("COST", "Costco Wholesale") ].

Definition energy_companies : list (string * string) :=
  [ ("XOM", "Exxon Mobil");
    ("CVX", "Chevron Corporation");
    ("COP", "ConocoPhillips");
    ("SLB", "Schlumberger");
    ("EOG", "EOG Resources") ].

(** Lines 33-36: the technology loop reads all three tables and uses
    the income statement only. *)
Definition fetch_tech (yf : Provider) (ticker : string)
  : result (option DataFrame * unit) :=
  stock <- yf ticker ;;
  income <- quarterly_income_stmt stock ;;
  balance <- quarterly_balance_sheet stock ;;
  cashflow <- quarterly_cashflow stock ;;
  Ok (income, tt).

(** Lines 93-94 (and 146-147, 197-198, 248-249): the other loops read
    the income statement only. *)
Definition fetch_income (yf : Provider) (ticker : string)
  : result (option DataFrame * unit) :=
  stock <- yf ticker ;;
  income <- quarterly_income_stmt stock ;;
  Ok (income, tt).

(** Lines 43-66 *)
Definition tech_record (ticker name : string) (income : DataFrame) (_ : unit)
    (col : Timestamp) : result Row :=
  let quarter_date := col in
  revenue <- item income "Total Revenue" col ;;
  gross_profit <- item income "Gross Profit" col ;;
  operating_income <- item income "Operating Income" col ;;
  net_income <- item income "Net Income" col ;;
  rd_expense <- item income "Research And Development" col ;;
  date <- strftime quarter_date ;;
  f_revenue <- int_or_none revenue ;;
  f_gross_profit <- int_or_none gross_profit ;;
  f_operating_income <- int_or_none operating_income ;;
  f_net_income <- int_or_none net_income ;;
  f_rd_expense <- int_or_none rd_expense ;;
  Ok [ ("Company", PStr name);
       ("Ticker", PStr ticker);
       ("Quarter", PStr (quarter_label quarter_date));
       ("Year", year quarter_date);
       ("Date", PStr date);
       ("Revenue", f_revenue);
       ("Gross_Profit", f_gross_profit);
       ("Operating_Income", f_operating_income);
       ("Net_Income", f_net_income);
       ("RD_Expense", f_rd_expense);
       ("Gross_Margin", ratio_or_none gross_profit revenue);
       ("Operating_Margin", ratio_or_none operating_income revenue);
       ("Net_Margin", ratio_or_none net_income revenue);
       ("RD_Intensity", ratio_or_none rd_expense revenue) ].

(** Lines 101-119 *)
Definition healthcare_record (ticker name : string) (income : DataFrame)
    (_ : unit) (col : Timestamp) : result Row :=
  let quarter_date := col in
  revenue <- item income "Total Revenue" col ;;
  gross_profit <- item income "Gross Profit" col ;;
  net_income <- item income "Net Income" col ;;
  rd_expense <- item income "Research And Development" col ;;
  date <- strftime quarter_date ;;
  f_revenue <- int_or_none revenue ;;
  f_gross_profit <- int_or_none gross_profit ;;
  f_net_income <- int_or_none net_income ;;
  f_rd_expense <- int_or_none rd_expense ;;
  Ok [ ("Company", PStr name);
       ("Ticker", PStr ticker);
       ("Quarter", PStr (quarter_label quarter_date));
       ("Year", year quarter_date);
       ("Date", PStr date);
       ("Revenue", f_revenue);
       ("Gross_Profit", f_gross_profit);
       ("Net_Income", f_net_income);
       ("RD_Expense", f_rd_expense);
       ("Gross_Margin", ratio_or_none gross_profit revenue);
       ("Net_Margin", ratio_or_none net_income revenue) ].

(** Lines 154-170 *)
Definition financial_record (ticker name : string) (income : DataFrame)
    (_ : unit) (col : Timestamp) : result Row :=
  let quarter_date := col in
  revenue <- item income "Total Revenue" col ;;
  net_income <- item income "Net Income" col ;;
  operating_income <- item income "Operating Income" col ;;
  date <- strftime quarter_date ;;
  f_revenue <- int_or_none revenue ;;
  f_operating_income <- int_or_none operating_income ;;
  f_net_income <- int_or_none net_income ;;
  Ok [ ("Company", PStr name);
       ("Ticker", PStr ticker);
       ("Quarter", PStr (quarter_label quarter_date));
       ("Year", year quarter_date);
       ("Date", PStr date);
       ("Revenue", f_revenue);
       ("Operating_Income", f_operating_income);
       ("Net_Income", f_net_income);
       ("Operating_Margin", ratio_or_none operating_income revenue);
       ("Net_Margin", ratio_or_none net_income revenue) ].

(** Lines 205-224 *)
Definition consumer_record (ticker name : string) (income : DataFrame)
    (_ : unit) (col : Timestamp) : result Row :=
  let quarter_date := col in
  revenue <- item income "Total Revenue" col ;;
  gross_profit <- item income "Gross Profit" col ;;
  operating_income <- item income "Operating Income" col ;;
  net_income <- item income "Net Income" col ;;
  date <- strftime quarter_date ;;
  f_revenue <- int_or_none revenue ;;
  f_gross_profit <- int_or_none gross_profit ;;
  f_operating_income <- int_or_none operating_income ;;
  f_net_income <- int_or_none net_income ;;
  Ok [ ("Company", PStr name);
       ("Ticker", PStr ticker);
       ("Quarter", PStr (quarter_label quarter_date));
       ("Year", year quarter_date);
       ("Date", PStr date);
       ("Revenue", f_revenue);
       ("Gross_Profit", f_gross_profit);
       ("Operating_Income", f_operating_income);
       ("Net_Income", f_net_income);
       ("Gross_Margin", ratio_or_none gross_profit revenue);
       ("Operating_Margin", ratio_or_none operating_income revenue);
       ("Net_Margin", ratio_or_none net_income revenue) ].

(** Lines 256-272 *)
Definition energy_record (ticker name : string) (income : DataFrame)
    (_ : unit) (col : Timestamp) : result Row :=
  let quarter_date := col in
  revenue <- item income "Total Revenue" col ;;
  gross_profit <- item income "Gross Profit" col ;;
  net_income <- item income "Net Income" col ;;
  date <- strftime quarter_date ;;
  f_revenue <- int_or_none revenue ;;
  f_gross_profit <- int_or_none gross_profit ;;
  f_net_income <- int_or_none net_income ;;
  Ok [ ("Company", PStr name);
       ("Ticker", PStr ticker);
       ("Quarter", PStr (quarter_label quarter_date));
       ("Year", year quarter_date);
       ("Date", PStr date);
       ("Revenue", f_revenue);
       ("Gross_Profit", f_gross_profit);
       ("Net_Income", f_net_income);
       ("Gross_Margin", ratio_or_none gross_profit revenue);
       ("Net_Margin", ratio_or_none net_income revenue) ].

(** Last 6 quarters. *)
Definition window : nat := 6.

Definition tech_data (yf : Provider) : list Row :=
  for_tickers window (fetch_tech yf) tech_record tech_companies [].

Definition healthcare_data (yf : Provider) : list Row :=
  for_tickers window (fetch_income yf) healthcare_record healthcare_companies [].

Definition financial_data (yf : Provider) : list Row :=
  for_tickers window (fetch_income yf) financial_record financial_companies [].

Definition consumer_data (yf : Provider) : list Row :=
  for_tickers window (fetch_income yf) consumer_record consumer_companies [].

Definition energy_data (yf : Provider) : list Row :=
  for_tickers window (fetch_income yf) energy_record energy_companies [].

(** [pd.DataFrame(data).to_csv(path, index=False)]: the rows written,
    in the order they are in the list. *)
Definition to_csv (data : list Row) : list Row := data.

(** The five sections of the script, by name. *)
Inductive Sector : Type := Tech | Healthcare | Financial | Consumer | Energy.

Definition sector_companies (s : Sector) : list (string * string) :=
  match s with
  | Tech => tech_companies
  | Healthcare => healthcare_companies
  | Financial => financial_companies
  | Consumer => consumer_companies
  | Energy => energy_companies
  end.

Definition sector_fetch (s : Sector) (yf : Provider)
  : string -> result (option DataFrame * unit) :=
  match s with
  | Tech => fetch_tech yf
  | _ => fetch_income yf
  end.

Definition sector_record (s : Sector)
  : string -> string -> DataFrame -> unit -> Timestamp -> result Row :=
  match s with
  | Tech => tech_record
  | Healthcare => healthcare_record
  | Financial => financial_record
  | Consumer => consumer_record
  | Energy => energy_record
  end.

Definition sector_data (s : Sector) (yf : Provider) : list Row :=
  match s with
  | Tech => tech_data yf
  | Healthcare => healthcare_data yf
  | Financial => financial_data yf
  | Consumer => consumer_data yf
  | Energy => energy_data yf
  end.

(** What each section writes to its file. *)
Definition sector_csv (s : Sector) (yf : Provider) : list Row :=
  to_csv (sector_data s yf).

End Comprehensive.

(** ** create-test-pdf.py *)

Module DealMemo.

Inductive Style : Type := title_style | heading_style | normal_style.

(** The reportlab flowables the script creates. *)
Inductive Flowable : Type :=
| Paragraph (text : string) (style : Style)
| Spacer (width : Z) (height : float64)
| PageBreak.

(** [reportlab.lib.units.inch] is 72.0 *)
Definition inch : float64 := S754_finite false 5066549580791808 (-46).

(** The literals 0.2 and 0.1 as binary64 values. *)
Definition two_tenths : float64 := S754_finite false 7205759403792794 (-55).
Definition one_tenth : float64 := S754_finite false 7205759403792794 (-56).

(** A statement [elements.append(b)]. *)
Inductive Stmt : Type := Append (b : Flowable).

Definition declared (s : Stmt) : Flowable :=
  match s with Append b => b end.

(** Lines 49-136 of [create_pe_deal_memo_pdf], statement by statement. *)
Definition body : list Stmt :=
  [ Append (Paragraph "CONFIDENTIAL - DEAL MEMORANDUM" title_style);
    Append (Spacer 1 (mul two_tenths inch));
    Append (Paragraph "EXECUTIVE SUMMARY" heading_style);
    Append (Paragraph "Titan Capital Partners proposes to acquire 100% of ACME Manufacturing Corp for an
        enterprise value of $450 million. ACME is a leading manufacturer of industrial
        components with strong market position and consistent cash flows." normal_style);
    Append (Spacer 1 (mul two_tenths inch));
    Append (Paragraph "KEY METRICS" heading_style);
    Append (Paragraph "• Enterprise Value: $450M" normal_style);
    Append (Paragraph "• Equity Investment: $180M (40%)" normal_style);
    Append (Paragraph "• Debt Financing: $270M (60%)" normal_style);
    Append (Paragraph "• Entry Multiple: 8.5x LTM EBITDA" normal_style);
    Append (Paragraph "• Current EBITDA: $53M" normal_style);
    Append (Spacer 1 (mul two_tenths inch));
    Append (Paragraph "FINANCIAL PROJECTIONS" heading_style);
    Append (Paragraph "Year 1: Revenue $340M, EBITDA $72M (22.4% margin)" normal_style);
    Append (Paragraph "Year 2: Revenue $385M, EBITDA $85M (22.1% margin)" normal_style);
    Append (Paragraph "Year 3: Revenue $440M, EBITDA $101M (23.0% margin)" normal_style);
    Append (Paragraph "Year 4: Revenue $510M, EBITDA $122M (23.9% margin)" normal_style);
    Append (Paragraph "Year 5: Revenue $595M, EBITDA $149M (25.0% margin)" normal_style);
    Append (Spacer 1 (mul two_tenths inch));
    Append (Paragraph "EXIT STRATEGY" heading_style);
    Append (Paragraph "Target exit multiple: 8.5x EBITDA" normal_style);
    Append (Paragraph "Projected exit value: $1,267M (at Year 5 EBITDA)" normal_style);
    Append (Paragraph "Expected return: 3.5x MOIC, 28% IRR" normal_style);
    Append (Spacer 1 (mul two_tenths inch));
    Append (Paragraph "RISK FACTORS" heading_style);
    Append (Paragraph "• Customer concentration (top 3 customers = 45% revenue)<br/>
        • Competitive pressure from low-cost overseas manufacturers<br/>
        • Raw material price volatility (steel, aluminum)<br/>
        • Dependency on automotive sector (35% of revenue)<br/>
        • Key personnel retention post-acquisition" normal_style);
    Append (Spacer 1 (mul two_tenths inch));
    Append (Paragraph "VALUE CREATION PLAN" heading_style);
    Append (Paragraph "1. Operational Excellence" normal_style);
    Append (Paragraph "   - Implement lean manufacturing (target: 15% OPEX reduction)" normal_style);
    Append (Paragraph "   - Upgrade ERP system for better inventory management" normal_style);
    Append (Paragraph "   - Consolidate 3 facilities into 2 modern plants" normal_style);
    Append (Spacer 1 (mul one_tenth inch));
    Append (Paragraph "2. Revenue Growth" normal_style);
    Append (Paragraph "   - Expand into aerospace sector (high-margin, stable)" normal_style);
    Append (Paragraph "   - Launch e-commerce channel for smaller customers" normal_style);
    Append (Paragraph "   - Geographic expansion: Southeast US and Mexico" normal_style);
    Append (Spacer 1 (mul one_tenth inch));
    Append (Paragraph "3. M&A Strategy" normal_style);
    Append (Paragraph "   - Acquire 2-3 complementary manufacturers" normal_style);
    Append (Paragraph "   - Budget: $50-75M for bolt-on acquisitions" normal_style);
    Append PageBreak;
    Append (Paragraph "MANAGEMENT TEAM" heading_style);
    Append (Paragraph "CEO: John Smith (retained, 15 years experience)<br/>
        CFO: Sarah Johnson (new hire, ex-Big 4)<br/>
        COO: Mike Williams (promoted internally)<br/>
        VP Sales: Lisa Brown (retained, 20 years)<br/>
        VP Operations: David Lee (new hire, lean manufacturing expert)" normal_style);
    Append (Spacer 1 (mul two_tenths inch));
    Append (Paragraph "DUE DILIGENCE SUMMARY" heading_style);
    Append (Paragraph "Financial: Clean audit, no material issues" normal_style);
    Append (Paragraph "Legal: One minor ongoing lawsuit, well-reserved" normal_style);
    Append (Paragraph "Environmental: All facilities compliant, no contamination" normal_style);
    Append (Paragraph "Commercial: Strong customer relationships, no major churn risk" normal_style);
    Append (Paragraph "IT: Legacy systems, modernization needed (budgeted)" normal_style) ].

(** [elements.append(b)] on the list the function holds. *)
Definition exec (elements : list Flowable) (s : Stmt) : list Flowable :=
  match s with Append b => elements ++ [b] end.

Definition run (stmts : list Stmt) (elements : list Flowable) : list Flowable :=
  fold_left exec stmts elements.

Definition pdf_file : string := "test-data/sample-deal-memo.pdf".

(** The call the script makes on the renderer: [doc.build(elements)]
    on the document opened at [pdf_file]. *)
Record Build : Type := mkBuild {
  build_file : string;
  build_flowables : list Flowable
}.

Definition create_pe_deal_memo_pdf : Build :=
  let elements := [] in
  let elements := run body elements in
  mkBuild pdf_file elements.

Definition is_page_break (b : Flowable) : bool :=
  match b with PageBreak => true | _ => false end.

End DealMemo.

(** * Vocabulary of the properties *)

(** ** Source values and field values *)

(** [float(z)] for an int: used to write sample tables. *)
Definition float_of_Z (z : Z) : float64 := binary_normalize prec emax z 0 false.

(** The value the scripts read for a line item of a period: [None] when
    the table has no such row, the cell otherwise. *)
Definition cell (df : DataFrame) (label : string) (col : Timestamp)
  : option float64 :=
  match item df label col with
  | Ok v => v
  | Raise _ => None
  end.

Definition cell_opt (df : option DataFrame) (label : string) (col : Timestamp)
  : option float64 :=
  match item_opt df label col with
  | Ok v => v
  | Raise _ => None
  end.

(** [pd.isna] on a field value: [None] and NaN are the missing values,
    and both are written as an empty field. *)
Definition isna (v : PyVal) : bool :=
  match v with
  | PNone => true
  | PFloat x => isnan x
  | _ => false
  end.

(** [z] is [x] truncated toward zero: [x] is finite, [z] has the sign of
    [x] and [|z| <= |x| < |z| + 1], with [|x| = m * 2^e]. *)
Definition truncation_of (x : float64) (z : Z) : Prop :=
  match x with
  | S754_zero _ => z = 0
  | S754_finite s m e =>
      (if s then z <= 0 else 0 <= z) /\
      Z.abs z * 2 ^ Z.max 0 (- e) <= Zpos m * 2 ^ Z.max 0 e
        < (Z.abs z + 1) * 2 ^ Z.max 0 (- e)
  | _ => False
  end.

(** A raw line-item field against its source: absent ([None]) when the
    source is [None] or NaN, else the integer truncation of the source. *)
Definition raw_field (source : option float64) (field : option PyVal) : Prop :=
  match source with
  | None => field = Some PNone
  | Some x =>
      if isnan x then field = Some PNone
      else exists z, truncation_of x z /\ field = Some (PInt z)
  end.

(** A ratio field against its operands: [None], or the float quotient
    of the two source values, the denominator being a non-zero cell. *)
Definition ratio_field (num den : option float64) (field : option PyVal) : Prop :=
  field = Some PNone \/
  exists n d, num = Some n /\ den = Some d /\ iszero d = false /\
              field = Some (PFloat (truediv n d)).

(** The denominator is absent or zero: no row, a NaN cell, or 0.0. *)
Definition absent_or_zero (den : option float64) : Prop :=
  match den with
  | None => True
  | Some d => isnan d = true \/ iszero d = true
  end.


(** The record a period contributes: one, or none when the body
    raised. *)
Definition produced {Aux : Type}
    (build : string -> string -> DataFrame -> Aux -> Timestamp -> result Row)
    (ticker name : string) (income : DataFrame) (aux : Aux) (col : Timestamp)
  : list Row :=
  match build ticker name income aux col with
  | Ok row => [row]
  | Raise _ => []
  end.

(** ** Sample tables

    The scenario of the specification: one ticker whose income statement
    has three periods (months 11, 5 and 2 of 2024, newest first), revenue
    and gross profit in all three and net income in two of them. *)

Module Sample.

Definition nov : Timestamp := Stamp 2024 11 30.
Definition may : Timestamp := Stamp 2024 5 31.
Definition feb : Timestamp := Stamp 2024 2 29.

Definition income : DataFrame :=
  mkDataFrame
    ["Total Revenue"; "Gross Profit"; "Net Income"]
    [nov; may; feb]
    [ [float_of_Z 100; float_of_Z 200; float_of_Z 300];
      [float_of_Z 40; float_of_Z 50; float_of_Z 60];
      [float_of_Z 10; nan; float_of_Z 30] ].

(** A frame with periods and no rows. *)
Definition no_rows : DataFrame := mkDataFrame [] [nov; may] [].

(** AAPL has the table above, MSFT no income statement, GOOGL an empty
    one; every other ticker is unknown to the provider. *)
Definition yf : Provider :=
  fun ticker =>
    if String.eqb ticker "AAPL" then
      Ok (mkTicker (Ok (Some income)) (Ok None) (Ok None))
    else if String.eqb ticker "MSFT" then
      Ok (mkTicker (Ok None) (Ok None) (Ok None))
    else if String.eqb ticker "GOOGL" then
      Ok (mkTicker (Ok (Some no_rows)) (Ok None) (Ok None))
    else Raise ProviderError.

(** A provider that serves the table above for every ticker. *)
Definition yf_every : Provider :=
  fun _ => Ok (mkTicker (Ok (Some income)) (Ok None) (Ok None)).

(** An income statement with an EBITDA row whose cell is NaN and an
    operating income of 5. *)
Definition income_nan_ebitda : DataFrame :=
  mkDataFrame
    ["Total Revenue"; "Operating Income"; "EBITDA"]
    [nov]
    [ [float_of_Z 100]; [float_of_Z 5]; [nan] ].

Definition yf_nan_ebitda : Provider :=
  fun ticker =>
    if String.eqb ticker "AAPL" then
      Ok (mkTicker (Ok (Some income_nan_ebitda)) (Ok None) (Ok None))
    else Raise ProviderError.

(** An income statement whose middle period has an infinite revenue. *)
Definition income_inf : DataFrame :=
  mkDataFrame
    ["Total Revenue"; "Net Income"]
    [nov; may; feb]
    [ [float_of_Z 100; inf; float_of_Z 300];
      [float_of_Z 10; float_of_Z 20; float_of_Z 30] ].

End Sample.

(** ** The six extractions, side by side *)

Import Comprehensive.

(** The single-list script, or one section of the multi-sector script. *)
Inductive Script : Type :=
| SingleList
| MultiSector (s : Sector).

(** What a period's body uses besides the income statement. *)
Definition aux_of (v : Script) : Type :=
  match v with
  | SingleList => (option DataFrame * option DataFrame)%type
  | MultiSector _ => unit
  end.

Definition script_window (v : Script) : nat :=
  match v with
  | SingleList => RealData.window
  | MultiSector _ => Comprehensive.window
  end.

Definition script_companies (v : Script) : list (string * string) :=
  match v with
  | SingleList => RealData.companies
  | MultiSector s => sector_companies s
  end.

Definition script_fetch (v : Script) (yf : Provider)
  : string -> result (option DataFrame * aux_of v) :=
  match v with
  | SingleList => RealData.fetch yf
  | MultiSector s => sector_fetch s yf
  end.

Definition script_record (v : Script)
  : string -> string -> DataFrame -> aux_of v -> Timestamp -> result Row :=
  match v with
  | SingleList => RealData.record
  | MultiSector s => sector_record s
  end.

(** The list the script has accumulated when its loop ends. *)
Definition script_data (v : Script) (yf : Provider) : list Row :=
  match v with
  | SingleList => RealData.all_data yf
  | MultiSector s => sector_data s yf
  end.

(** The order of the sort: company, then year, then quarter label. *)
Definition row_le (a b : Row) : Prop := RealData.row_leb a b = true.

(** What each script hands to [to_csv]. *)
Definition script_csv (v : Script) (yf : Provider) : result (list Row) :=
  match v with
  | SingleList => RealData.main yf
  | MultiSector s => Ok (sector_csv s yf)
  end.

(** ** What the properties say of a record *)

(** The income statement of the ticker is [None] or an empty frame. *)
Definition no_income_statement (stock : Ticker) : Prop :=
  quarterly_income_stmt stock = Ok None \/
  exists income,
    quarterly_income_stmt stock = Ok (Some income) /\ empty income = true.

(** The ratio fields of each record, with the row label of their
    numerator; the denominator is always the total revenue. *)
Definition ratio_fields (v : Script) : list (string * string) :=
  match v with
  | SingleList =>
      [ ("Gross_Margin", "Gross Profit");
        ("Operating_Margin", "Operating Income");
        ("Net_Margin", "Net Income") ]
  | MultiSector Tech =>
      [ ("Gross_Margin", "Gross Profit");
        ("Operating_Margin", "Operating Income");
        ("Net_Margin", "Net Income");
        ("RD_Intensity", "Research And Development") ]
  | MultiSector Healthcare =>
      [ ("Gross_Margin", "Gross Profit");
        ("Net_Margin", "Net Income") ]
  | MultiSector Financial =>
      [ ("Operating_Margin", "Operating Income");
        ("Net_Margin", "Net Income") ]
  | MultiSector Consumer =>
      [ ("Gross_Margin", "Gross Profit");
        ("Operating_Margin", "Operating Income");
        ("Net_Margin", "Net Income") ]
  | MultiSector Energy =>
      [ ("Gross_Margin", "Gross Profit");
        ("Net_Margin", "Net Income") ]
  end.


(** The specification's rule: the explicit EBITDA value when that value
    is present, else the operating income when present, else absent. *)
Definition ebitda_as_stated (explicit operating_income : option float64)
    (field : option PyVal) : Prop :=
  if notna explicit then raw_field explicit field
  else if notna operating_income then raw_field operating_income field
  else field = Some PNone.

(** The script's rule: the explicit EBITDA cell when the table has an
    EBITDA row, else the operating income. *)
Definition ebitda_by_row (income : DataFrame) (col : Timestamp)
    (field : option PyVal) : Prop :=
  if in_index "EBITDA" income then raw_field (cell income "EBITDA" col) field
  else raw_field (cell income "Operating Income" col) field.

(** The value [ebitda] holds at line 65. *)
Definition ebitda_source (income : DataFrame) (col : Timestamp)
  : option float64 :=
  if in_index "EBITDA" income then cell income "EBITDA" col
  else cell income "Operating Income" col.

(** The raw line-item fields of each record, with the value the script
    read for them. *)
Definition raw_sources (v : Script)
  : DataFrame -> aux_of v -> Timestamp -> list (string * option float64) :=
  match v with
  | SingleList => fun income aux col =>
      [ ("Revenue", cell income "Total Revenue" col);
        ("Gross_Profit", cell income "Gross Profit" col);
        ("EBITDA", ebitda_source income col);
        ("Operating_Income", cell income "Operating Income" col);
        ("Net_Income", cell income "Net Income" col);
        ("Total_Assets", cell_opt (fst aux) "Total Assets" col);
        ("Total_Debt", cell_opt (fst aux) "Total Debt" col);
        ("Operating_Cashflow", cell_opt (snd aux) "Operating Cash Flow" col);
        ("Free_Cashflow", cell_opt (snd aux) "Free Cash Flow" col) ]
  | MultiSector Tech => fun income _ col =>
      [ ("Revenue", cell income "Total Revenue" col);
        ("Gross_Profit", cell income "Gross Profit" col);
        ("Operating_Income", cell income "Operating Income" col);
        ("Net_Income", cell income "Net Income" col);
        ("RD_Expense", cell income "Research And Development" col) ]
  | MultiSector Healthcare => fun income _ col =>
      [ ("Revenue", cell income "Total Revenue" col);
        ("Gross_Profit", cell income "Gross Profit" col);
        ("Net_Income", cell income "Net Income" col);
        ("RD_Expense", cell income "Research And Development" col) ]
  | MultiSector Financial => fun income _ col =>
      [ ("Revenue", cell income "Total Revenue" col);
        ("Operating_Income", cell income "Operating Income" col);
        ("Net_Income", cell income "Net Income" col) ]
  | MultiSector Consumer => fun income _ col =>
      [ ("Revenue", cell income "Total Revenue" col);
        ("Gross_Profit", cell income "Gross Profit" col);
        ("Operating_Income", cell income "Operating Income" col);
        ("Net_Income", cell income "Net Income" col) ]
  | MultiSector Energy => fun income _ col =>
      [ ("Revenue", cell income "Total Revenue" col);
        ("Gross_Profit", cell income "Gross Profit" col);
        ("Net_Income", cell income "Net Income" col) ]
  end.

(** The keys of the dict literal of each section, in its order. *)
Definition sector_fields (s : Sector) : list string :=
  match s with
  | Tech =>
      [ "Company"; "Ticker"; "Quarter"; "Year"; "Date"; "Revenue";
        "Gross_Profit"; "Operating_Income"; "Net_Income"; "RD_Expense";
        "Gross_Margin"; "Operating_Margin"; "Net_Margin"; "RD_Intensity" ]
  | Healthcare =>
      [ "Company"; "Ticker"; "Quarter"; "Year"; "Date"; "Revenue";
        "Gross_Profit"; "Net_Income"; "RD_Expense"; "Gross_Margin";
        "Net_Margin" ]
  | Financial =>
      [ "Company"; "Ticker"; "Quarter"; "Year"; "Date"; "Revenue";
        "Operating_Income"; "Net_Income"; "Operating_Margin"; "Net_Margin" ]
  | Consumer =>
      [ "Company"; "Ticker"; "Quarter"; "Year"; "Date"; "Revenue";
        "Gross_Profit"; "Operating_Income"; "Net_Income"; "Gross_Margin";
        "Operating_Margin"; "Net_Margin" ]
  | Energy =>
      [ "Company"; "Ticker"; "Quarter"; "Year"; "Date"; "Revenue";
        "Gross_Profit"; "Net_Income"; "Gross_Margin"; "Net_Margin" ]
  end.

(** ** Vocabulary of the further properties *)

(** The loops that read the balance sheet and the cash-flow table: the
    single-list script (lines 38-39) and the technology section (lines
    35-36 of the multi-sector script). *)
Definition reads_side_tables (v : Script) : bool :=
  match v with
  | SingleList => true
  | MultiSector Tech => true
  | MultiSector _ => false
  end.

(** The ticker contributes nothing: the fetch raised, or the income
    statement is [None] or empty. *)
Definition yields_nothing (v : Script) (yf : Provider) (ticker : string) : Prop :=
  match script_fetch v yf ticker with
  | Raise _ => True
  | Ok (None, _) => True
  | Ok (Some income, _) => empty income = true
  end.

(** Providers for the failure cases: one that is down, and one whose
    balance-sheet read fails for every ticker. *)
Module Cases.

Definition yf_down : Provider := fun _ => Raise ProviderError.

Definition stock_no_balance : Ticker :=
  mkTicker (Ok (Some Sample.income)) (Raise ProviderError) (Ok None).

Definition yf_no_balance : Provider := fun _ => Ok stock_no_balance.

End Cases.

(** The keys of the dict literal of the single-list script (lines
    79-97), in its order: the columns of the frame and of the file. *)
Definition single_list_fields : list string :=
  [ "Company"; "Ticker"; "Quarter"; "Year"; "Date"; "Revenue";
    "Gross_Profit"; "EBITDA"; "Operating_Income"; "Net_Income";
    "Total_Assets"; "Total_Debt"; "Operating_Cashflow"; "Free_Cashflow";
    "Gross_Margin"; "Operating_Margin"; "Net_Margin" ].

(** The value is not an infinity: a number, a NaN, or no value. *)
Definition not_infinite (src : option float64) : Prop :=
  forall s, src <> Some (S754_infinity s).

(** A side table that has only the newest period. *)
Definition balance_nov : DataFrame :=
  mkDataFrame ["Total Assets"] [Sample.nov] [[float_of_Z 7]].

(** The operand fails the truth test of the ratio: no row, or a zero. *)
Definition missing_or_zero (c : option float64) : Prop :=
  match c with
  | None => True
  | Some x => iszero x = true
  end.


(** The value of a ratio field, by the truth test on its operands. *)
Definition ratio_exact (v : Script) (num den : option float64)
    (field : option PyVal) : Prop :=
  (missing_or_zero num \/ missing_or_zero den -> field = Some PNone) /\
  (forall n d,
      num = Some n -> den = Some d -> iszero n = false -> iszero d = false ->
      match v with
      | SingleList =>
          field = Some (if isnan (truediv n d) then PNone
                        else PFloat (truediv n d))
      | MultiSector _ => field = Some (PFloat (truediv n d))
      end).

(** ** The summary of the single-list script (lines 124-131)

    [df] is the frame built from the records: its columns are the keys
    of the records in the order they first appear, and a record without
    a key has a NaN in that column. *)

Module Summary.

(** [pd.DataFrame(records).columns] *)
Definition frame_columns (df : list Row) : list string :=
  fold_left
    (fun (cols : list string) r =>
       (cols ++ filter (fun k => negb (existsb (String.eqb k) cols))
                  (keys r))%list)
    df [].

Definition frame_cell (r : Row) (column : string) : PyVal :=
  match get column r with
  | Some v => v
  | None => PFloat nan
  end.

(** [len(df)] *)
Definition records (df : list Row) : nat := List.length df.

(** [len(df.columns)] *)
Definition n_columns (df : list Row) : nat := List.length (frame_columns df).

(** [df.isnull().sum().sum()] *)
Definition missing_values (df : list Row) : nat :=
  list_sum
    (map (fun r =>
            List.length (filter (fun c => isna (frame_cell r c))
                           (frame_columns df)))
       df).

End Summary.

(** An income statement with an operating income and no EBITDA row. *)
Definition income_operating : DataFrame :=
  mkDataFrame
    ["Total Revenue"; "Operating Income"]
    [Sample.nov]
    [ [float_of_Z 100]; [float_of_Z 25] ].

Definition yf_operating : Provider :=
  fun _ => Ok (mkTicker (Ok (Some income_operating)) (Ok None) (Ok None)).

(** ** Where the records of a run come from *)

(** What the loop read besides the income statement, against the
    provider: the single-list script keeps the balance sheet and the
    cash-flow table it read; the technology section reads both and keeps
    neither; the other sections read neither. *)
Definition side_tables (v : Script) (stock : Ticker) : aux_of v -> Prop :=
  match v with
  | SingleList => fun aux =>
      quarterly_balance_sheet stock = Ok (fst aux) /\
      quarterly_cashflow stock = Ok (snd aux)
  | MultiSector Tech => fun _ =>
      (exists balance, quarterly_balance_sheet stock = Ok balance) /\
      (exists cashflow, quarterly_cashflow stock = Ok cashflow)
  | MultiSector _ => fun _ => True
  end.

(** A period the provider serves to the loop: the ticker is in the
    mapping, the provider answers for it with a non-empty income
    statement [income] and the side tables [aux], and [col] is one of
    the first columns of [income]. *)
Definition served (v : Script) (yf : Provider) (ticker name : string)
    (income : DataFrame) (aux : aux_of v) (col : Timestamp) : Prop :=
  In (ticker, name) (script_companies v) /\
  (exists stock,
      yf ticker = Ok stock /\
      quarterly_income_stmt stock = Ok (Some income) /\
      side_tables v stock aux) /\
  empty income = false /\
  In col (firstn (script_window v) (columns income)).

(** ** The ratio fields, as stated and as they are *)

(** The specification's rule for a ratio field: absent or the quotient,
    and absent, never a computed value, when the denominator is absent
    or zero. *)
Definition ratio_as_stated (num den : option float64) (field : option PyVal)
  : Prop :=
  ratio_field num den field /\
  (absent_or_zero den -> field = Some PNone).

(** The scripts' rule: [None] or the quotient; [None] when the revenue
    has no row or is zero; on a NaN revenue, [None] in the single-list
    script, and in the multi-sector script the NaN that the division
    gives, unless the numerator has no row or is zero. *)
Definition ratio_amended (v : Script) (num den : option float64)
    (field : option PyVal) : Prop :=
  ratio_field num den field /\
  (den = None \/ (exists d, den = Some d /\ iszero d = true) ->
   field = Some PNone) /\
  (den = Some nan ->
   match v with
   | SingleList => field = Some PNone
   | MultiSector _ =>
       (missing_or_zero num -> field = Some PNone) /\
       (forall n, num = Some n -> iszero n = false ->
                  field = Some (PFloat nan))
   end).

(** An income statement whose revenue is NaN at its only period. *)
Definition income_nan_revenue : DataFrame :=
  mkDataFrame
    ["Total Revenue"; "Gross Profit"]
    [Sample.nov]
    [ [nan]; [float_of_Z 5] ].

Definition yf_nan_revenue : Provider :=
  fun _ => Ok (mkTicker (Ok (Some income_nan_revenue)) (Ok None) (Ok None)).

(** [z / 2] as a float: 1.5 for 3, 2.5 for 5. *)
Definition half (z : Z) : float64 := truediv (float_of_Z z) (float_of_Z 2).


(** An income statement with a revenue of 100, a gross profit of zero
    and a net income of 10. *)
Definition income_zero_profit : DataFrame :=
  mkDataFrame
    ["Total Revenue"; "Gross Profit"; "Net Income"]
    [Sample.nov]
    [ [float_of_Z 100]; [float_of_Z 0]; [float_of_Z 10] ].

(** ** When a lookup gives a cell *)

(** The rows a loop looks up in the income statement. *)
Definition income_labels (v : Script) : list string :=
  match v with
  | SingleList =>
      [ "Total Revenue"; "Gross Profit"; "Operating Income"; "Net Income";
        "EBITDA" ]
  | MultiSector Tech =>
      [ "Total Revenue"; "Gross Profit"; "Operating Income"; "Net Income";
        "Research And Development" ]
  | MultiSector Healthcare =>
      [ "Total Revenue"; "Gross Profit"; "Net Income";
        "Research And Development" ]
  | MultiSector Financial =>
      [ "Total Revenue"; "Net Income"; "Operating Income" ]
  | MultiSector Consumer =>
      [ "Total Revenue"; "Gross Profit"; "Operating Income"; "Net Income" ]
  | MultiSector Energy =>
      [ "Total Revenue"; "Gross Profit"; "Net Income" ]
  end.

(** The row can be read at the period: when the table has the row, the
    row label occurs once in the index and the period once among the
    columns. *)
Definition read_once (df : DataFrame) (label : string) (col : Timestamp)
  : Prop :=
  in_index label df = true ->
  List.length (filter (String.eqb label) (index df)) = 1%nat /\
  List.length (filter (Timestamp_eqb col) (columns df)) = 1%nat.

Definition read_once_opt (table : option DataFrame) (label : string)
    (col : Timestamp) : Prop :=
  match table with
  | Some t => read_once t label col
  | None => True
  end.

(** The column is a date that [strftime] formats: a timestamp with a
    year from 1 to 9999. *)
Definition dated (col : Timestamp) : Prop :=
  exists y m d, col = Stamp y m d /\ 1 <= y <= 9999.

(** An income statement in which the period of November occurs twice. *)
Definition income_repeated : DataFrame :=
  mkDataFrame
    ["Total Revenue"; "Net Income"]
    [Sample.nov; Sample.may; Sample.nov]
    [ [float_of_Z 100; float_of_Z 200; float_of_Z 300];
      [float_of_Z 10; float_of_Z 20; float_of_Z 30] ].

(** * Properties *)

Import DealMemo.
Import RealData.

(** ** Facts about the shared loop *)

Section ExtractionFacts.

Context {Aux : Type}.
Variable window : nat.
Variable fetch : string -> result (option DataFrame * Aux).
Variable build : string -> string -> DataFrame -> Aux -> Timestamp -> result Row.

Lemma for_periods_flat_map ticker name income aux cols data :
  for_periods build ticker name income aux cols data =
  (data ++ flat_map (produced build ticker name income aux) cols)%list.
Proof.
  revert data.
  induction cols as [|col cols IH]; intros data; simpl.
  - now rewrite app_nil_r.
  - unfold produced at 1.
    destruct (build ticker name income aux col) as [row|e]; rewrite IH.
    + now rewrite <- app_assoc.
    + reflexivity.
Qed.

Lemma for_ticker_app ticker name data :
  for_ticker window fetch build ticker name data =
  (data ++ for_ticker window fetch build ticker name [])%list.
Proof.
  unfold for_ticker.
  destruct (fetch ticker) as [[[income|] aux]|e];
    try now rewrite app_nil_r.
  destruct (empty income); [now rewrite app_nil_r|].
  now rewrite for_periods_flat_map, (for_periods_flat_map _ _ _ _ _ []).
Qed.

Lemma for_tickers_flat_map companies data :
  for_tickers window fetch build companies data =
  (data ++ flat_map
             (fun c => for_ticker window fetch build (fst c) (snd c) [])
             companies)%list.
Proof.
  revert data.
  induction companies as [|[ticker name] companies IH]; intros data; simpl.
  - now rewrite app_nil_r.
  - rewrite IH, for_ticker_app, <- app_assoc. reflexivity.
Qed.

(** Every record of the run comes from one period of one ticker of the
    mapping, within the window of a non-empty income statement. *)
Lemma for_tickers_inv companies r :
  In r (for_tickers window fetch build companies []) ->
  exists ticker name income aux col,
    In (ticker, name) companies /\
    fetch ticker = Ok (Some income, aux) /\
    empty income = false /\
    In col (firstn window (columns income)) /\
    build ticker name income aux col = Ok r.
Proof.
  rewrite for_tickers_flat_map. simpl.
  rewrite in_flat_map.
  intros [[ticker name] [Hc Hr]]. simpl in Hr.
  unfold for_ticker in Hr.
  destruct (fetch ticker) as [[[income|] aux]|e] eqn:Hf; try contradiction.
  destruct (empty income) eqn:He; try contradiction.
  rewrite for_periods_flat_map in Hr. simpl in Hr.
  apply in_flat_map in Hr. destruct Hr as [col [Hcol Hr]].
  unfold produced in Hr.
  destruct (build ticker name income aux col) as [row|e] eqn:Hb;
    [|contradiction].
  destruct Hr as [->|[]].
  exists ticker, name, income, aux, col. auto.
Qed.

Lemma produced_length ticker name income aux col :
  (List.length (produced build ticker name income aux col) <= 1)%nat.
Proof.
  unfold produced.
  destruct (build ticker name income aux col); simpl; lia.
Qed.

Lemma flat_map_produced_length ticker name income aux cols :
  (List.length (flat_map (produced build ticker name income aux) cols)
   <= List.length cols)%nat.
Proof.
  induction cols as [|col cols IH]; simpl; [lia|].
  rewrite length_app.
  pose proof (produced_length ticker name income aux col). lia.
Qed.

Lemma for_ticker_length ticker name :
  (List.length (for_ticker window fetch build ticker name []) <= window)%nat.
Proof.
  unfold for_ticker.
  destruct (fetch ticker) as [[[income|] aux]|e]; simpl; try lia.
  destruct (empty income); simpl; try lia.
  rewrite for_periods_flat_map. simpl.
  pose proof (flat_map_produced_length ticker name income aux
                (firstn window (columns income))) as H.
  pose proof (firstn_le_length window (columns income)). lia.
Qed.

Lemma for_tickers_length companies :
  (List.length (for_tickers window fetch build companies [])
   <= List.length companies * window)%nat.
Proof.
  rewrite for_tickers_flat_map. simpl.
  induction companies as [|[ticker name] companies IH]; simpl; [lia|].
  rewrite length_app.
  pose proof (for_ticker_length ticker name). lia.
Qed.

End ExtractionFacts.

(** ** Conversions *)

Lemma cell_item df label col v :
  item df label col = Ok v -> cell df label col = v.
Proof. unfold cell. now intros ->. Qed.

Lemma cell_opt_item df label col v :
  item_opt df label col = Ok v -> cell_opt df label col = v.
Proof. unfold cell_opt. now intros ->. Qed.

Lemma int_truncation x z : int x = Ok z -> truncation_of x z.
Proof.
  destruct x as [s|s| |s m e]; cbn [int truncation_of]; try discriminate.
  - now intros [= <-].
  - intros [= <-].
    assert (Hp : 0 < 2 ^ Z.max 0 (- e)) by (apply Z.pow_pos_nonneg; lia).
    assert (Hq : 0 <= 2 ^ Z.max 0 e) by (apply Z.pow_nonneg; lia).
    set (a := Zpos m * 2 ^ Z.max 0 e).
    set (b := 2 ^ Z.max 0 (- e)) in *.
    assert (Ha : 0 <= a) by (unfold a; nia).
    assert (Hs : cond_Zopp s (Zpos m) * 2 ^ Z.max 0 e = cond_Zopp s a)
      by (unfold a, cond_Zopp; destruct s;
          [apply Z.mul_opp_l | reflexivity]).
    rewrite Hs.
    assert (Hquot : Z.quot (cond_Zopp s a) b = cond_Zopp s (a / b)).
    { unfold cond_Zopp. destruct s.
      - rewrite Z.quot_opp_l by lia. rewrite Z.quot_div_nonneg by lia.
        reflexivity.
      - now rewrite Z.quot_div_nonneg by lia. }
    rewrite Hquot.
    pose proof (Z.div_pos a b Ha Hp) as Hd.
    assert (Habs : Z.abs (cond_Zopp s (a / b)) = a / b)
      by (unfold cond_Zopp; destruct s; lia).
    rewrite Habs.
    pose proof (Z.mul_div_le a b Hp).
    pose proof (Z.mul_succ_div_gt a b Hp).
    clearbody a b.
    split; [unfold cond_Zopp; destruct s; lia | nia].
Qed.

Lemma int_or_none_raw source v :
  int_or_none source = Ok v -> raw_field source (Some v).
Proof.
  unfold int_or_none, raw_field, notna.
  destruct source as [x|]; [|now intros [= <-]].
  destruct (isnan x) eqn:Hn; simpl; [now intros [= <-]|].
  destruct (int x) as [z|e] eqn:Hz; simpl; [|discriminate].
  intros [= <-]. exists z. split; [now apply int_truncation|reflexivity].
Qed.

Lemma truediv_nan_r n : truediv n nan = nan.
Proof. now destruct n. Qed.


Lemma float_or_none_ratio num den :
  ratio_field num den (Some (float_or_none (margin num den))).
Proof.
  unfold ratio_field, float_or_none, margin.
  destruct (truthy den && truthy num) eqn:Ht; [|now left].
  apply andb_true_iff in Ht. destruct Ht as [Hd Hn].
  destruct num as [n|]; [|discriminate].
  destruct den as [d|]; [|discriminate].
  simpl. destruct (isnan (truediv n d)); simpl; [now left|].
  right. exists n, d. simpl in Hd.
  repeat split; try reflexivity. now destruct (iszero d).
Qed.

Lemma float_or_none_absent num den :
  absent_or_zero den -> float_or_none (margin num den) = PNone.
Proof.
  unfold float_or_none, margin.
  destruct den as [d|]; simpl; [|reflexivity].
  intros [Hd|Hd].
  - destruct d; try discriminate. simpl.
    destruct (truthy num); [|reflexivity].
    destruct num as [n|]; [|reflexivity].
    now rewrite truediv_nan_r.
  - now rewrite Hd.
Qed.

Lemma ratio_or_none_ratio num den :
  ratio_field num den (Some (ratio_or_none num den)).
Proof.
  unfold ratio_field, ratio_or_none.
  destruct (truthy den && truthy num) eqn:Ht; [|now left].
  apply andb_true_iff in Ht. destruct Ht as [Hd Hn].
  destruct num as [n|]; [|discriminate].
  destruct den as [d|]; [|discriminate].
  right. exists n, d. simpl in Hd.
  repeat split; try reflexivity. now destruct (iszero d).
Qed.


(** ** What a successful period leaves in its record *)

(** Split [x <- m ;; k = Ok r]: [m] returned, and so did [k]. *)
Ltac bind_inv H :=
  repeat match type of H with
    | bind ?m _ = Ok _ =>
        let E := fresh "E" in
        destruct m eqn:E; cbn [bind] in H; [|discriminate H]
    end.

Lemma real_record_fields ticker company_name income balance cashflow col r :
  RealData.record ticker company_name income (balance, cashflow) col = Ok r ->
  exists date ebitda f_revenue f_gross_profit f_ebitda f_operating_income
         f_net_income f_total_assets f_total_debt f_operating_cashflow
         f_free_cashflow,
    strftime col = Ok date /\
    RealData.ebitda_of income col (cell income "Operating Income" col)
      = Ok ebitda /\
    int_or_none (cell income "Total Revenue" col) = Ok f_revenue /\
    int_or_none (cell income "Gross Profit" col) = Ok f_gross_profit /\
    int_or_none ebitda = Ok f_ebitda /\
    int_or_none (cell income "Operating Income" col) = Ok f_operating_income /\
    int_or_none (cell income "Net Income" col) = Ok f_net_income /\
    int_or_none (cell_opt balance "Total Assets" col) = Ok f_total_assets /\
    int_or_none (cell_opt balance "Total Debt" col) = Ok f_total_debt /\
    int_or_none (cell_opt cashflow "Operating Cash Flow" col)
      = Ok f_operating_cashflow /\
    int_or_none (cell_opt cashflow "Free Cash Flow" col) = Ok f_free_cashflow /\
    r = [ ("Company", PStr company_name);
          ("Ticker", PStr ticker);
          ("Quarter", PStr (quarter_label col));
          ("Year", year col);
          ("Date", PStr date);
          ("Revenue", f_revenue);
          ("Gross_Profit", f_gross_profit);
          ("EBITDA", f_ebitda);
          ("Operating_Income", f_operating_income);
          ("Net_Income", f_net_income);
          ("Total_Assets", f_total_assets);
          ("Total_Debt", f_total_debt);
          ("Operating_Cashflow", f_operating_cashflow);
          ("Free_Cashflow", f_free_cashflow);
          ("Gross_Margin",
            float_or_none (margin (cell income "Gross Profit" col)
                                  (cell income "Total Revenue" col)));
          ("Operating_Margin",
            float_or_none (margin (cell income "Operating Income" col)
                                  (cell income "Total Revenue" col)));
          ("Net_Margin",
            float_or_none (margin (cell income "Net Income" col)
                                  (cell income "Total Revenue" col))) ].
Proof.
  unfold RealData.record. cbv zeta. cbn [fst snd]. intros H.
  bind_inv H.
  injection H as <-.
  repeat match goal with
         | E : item _ _ _ = Ok _ |- _ => apply cell_item in E; rewrite E
         | E : item_opt _ _ _ = Ok _ |- _ => apply cell_opt_item in E; rewrite E
         end.
  do 11 eexists. repeat split; eassumption.
Qed.

Ltac record_inv H :=
  cbv zeta; intros H; bind_inv H; injection H as <-;
  repeat match goal with
         | E : item _ _ _ = Ok _ |- _ => apply cell_item in E; rewrite E
         end;
  repeat eexists; eassumption.

Lemma tech_record_fields ticker name income u col r :
  Comprehensive.tech_record ticker name income u col = Ok r ->
  exists date f_revenue f_gross_profit f_operating_income f_net_income
         f_rd_expense,
    strftime col = Ok date /\
    int_or_none (cell income "Total Revenue" col) = Ok f_revenue /\
    int_or_none (cell income "Gross Profit" col) = Ok f_gross_profit /\
    int_or_none (cell income "Operating Income" col) = Ok f_operating_income /\
    int_or_none (cell income "Net Income" col) = Ok f_net_income /\
    int_or_none (cell income "Research And Development" col)
      = Ok f_rd_expense /\
    r = [ ("Company", PStr name);
          ("Ticker", PStr ticker);
          ("Quarter", PStr (quarter_label col));
          ("Year", year col);
          ("Date", PStr date);
          ("Revenue", f_revenue);
          ("Gross_Profit", f_gross_profit);
          ("Operating_Income", f_operating_income);
          ("Net_Income", f_net_income);
          ("RD_Expense", f_rd_expense);
          ("Gross_Margin",
            ratio_or_none (cell income "Gross Profit" col)
                          (cell income "Total Revenue" col));
          ("Operating_Margin",
            ratio_or_none (cell income "Operating Income" col)
                          (cell income "Total Revenue" col));
          ("Net_Margin",
            ratio_or_none (cell income "Net Income" col)
                          (cell income "Total Revenue" col));
          ("RD_Intensity",
            ratio_or_none (cell income "Research And Development" col)
                          (cell income "Total Revenue" col)) ].
Proof. unfold Comprehensive.tech_record. record_inv H. Qed.

Lemma healthcare_record_fields ticker name income u col r :
  Comprehensive.healthcare_record ticker name income u col = Ok r ->
  exists date f_revenue f_gross_profit f_net_income f_rd_expense,
    strftime col = Ok date /\
    int_or_none (cell income "Total Revenue" col) = Ok f_revenue /\
    int_or_none (cell income "Gross Profit" col) = Ok f_gross_profit /\
    int_or_none (cell income "Net Income" col) = Ok f_net_income /\
    int_or_none (cell income "Research And Development" col)
      = Ok f_rd_expense /\
    r = [ ("Company", PStr name);
          ("Ticker", PStr ticker);
          ("Quarter", PStr (quarter_label col));
          ("Year", year col);
          ("Date", PStr date);
          ("Revenue", f_revenue);
          ("Gross_Profit", f_gross_profit);
          ("Net_Income", f_net_income);
          ("RD_Expense", f_rd_expense);
          ("Gross_Margin",
            ratio_or_none (cell income "Gross Profit" col)
                          (cell income "Total Revenue" col));
          ("Net_Margin",
            ratio_or_none (cell income "Net Income" col)
                          (cell income "Total Revenue" col)) ].
Proof. unfold Comprehensive.healthcare_record. record_inv H. Qed.

Lemma financial_record_fields ticker name income u col r :
  Comprehensive.financial_record ticker name income u col = Ok r ->
  exists date f_revenue f_operating_income f_net_income,
    strftime col = Ok date /\
    int_or_none (cell income "Total Revenue" col) = Ok f_revenue /\
    int_or_none (cell income "Operating Income" col) = Ok f_operating_income /\
    int_or_none (cell income "Net Income" col) = Ok f_net_income /\
    r = [ ("Company", PStr name);
          ("Ticker", PStr ticker);
          ("Quarter", PStr (quarter_label col));
          ("Year", year col);
          ("Date", PStr date);
          ("Revenue", f_revenue);
          ("Operating_Income", f_operating_income);
          ("Net_Income", f_net_income);
          ("Operating_Margin",
            ratio_or_none (cell income "Operating Income" col)
                          (cell income "Total Revenue" col));
          ("Net_Margin",
            ratio_or_none (cell income "Net Income" col)
                          (cell income "Total Revenue" col)) ].
Proof. unfold Comprehensive.financial_record. record_inv H. Qed.

Lemma consumer_record_fields ticker name income u col r :
  Comprehensive.consumer_record ticker name income u col = Ok r ->
  exists date f_revenue f_gross_profit f_operating_income f_net_income,
    strftime col = Ok date /\
    int_or_none (cell income "Total Revenue" col) = Ok f_revenue /\
    int_or_none (cell income "Gross Profit" col) = Ok f_gross_profit /\
    int_or_none (cell income "Operating Income" col) = Ok f_operating_income /\
    int_or_none (cell income "Net Income" col) = Ok f_net_income /\
    r = [ ("Company", PStr name);
          ("Ticker", PStr ticker);
          ("Quarter", PStr (quarter_label col));
          ("Year", year col);
          ("Date", PStr date);
          ("Revenue", f_revenue);
          ("Gross_Profit", f_gross_profit);
          ("Operating_Income", f_operating_income);
          ("Net_Income", f_net_income);
          ("Gross_Margin",
            ratio_or_none (cell income "Gross Profit" col)
                          (cell income "Total Revenue" col));
          ("Operating_Margin",
            ratio_or_none (cell income "Operating Income" col)
                          (cell income "Total Revenue" col));
          ("Net_Margin",
            ratio_or_none (cell income "Net Income" col)
                          (cell income "Total Revenue" col)) ].
Proof. unfold Comprehensive.consumer_record. record_inv H. Qed.

Lemma energy_record_fields ticker name income u col r :
  Comprehensive.energy_record ticker name income u col = Ok r ->
  exists date f_revenue f_gross_profit f_net_income,
    strftime col = Ok date /\
    int_or_none (cell income "Total Revenue" col) = Ok f_revenue /\
    int_or_none (cell income "Gross Profit" col) = Ok f_gross_profit /\
    int_or_none (cell income "Net Income" col) = Ok f_net_income /\
    r = [ ("Company", PStr name);
          ("Ticker", PStr ticker);
          ("Quarter", PStr (quarter_label col));
          ("Year", year col);
          ("Date", PStr date);
          ("Revenue", f_revenue);
          ("Gross_Profit", f_gross_profit);
          ("Net_Income", f_net_income);
          ("Gross_Margin",
            ratio_or_none (cell income "Gross Profit" col)
                          (cell income "Total Revenue" col));
          ("Net_Margin",
            ratio_or_none (cell income "Net Income" col)
                          (cell income "Total Revenue" col)) ].
Proof. unfold Comprehensive.energy_record. record_inv H. Qed.

(** ** Facts about the six extractions *)

Lemma script_data_loop v yf :
  script_data v yf =
  for_tickers (script_window v) (script_fetch v yf) (script_record v)
    (script_companies v) [].
Proof. destruct v as [|[]]; reflexivity. Qed.

(** Where a record of the run comes from. *)
Lemma script_data_inv v yf r :
  In r (script_data v yf) ->
  exists ticker name income aux col,
    In (ticker, name) (script_companies v) /\
    script_fetch v yf ticker = Ok (Some income, aux) /\
    empty income = false /\
    In col (firstn (script_window v) (columns income)) /\
    script_record v ticker name income aux col = Ok r.
Proof. rewrite script_data_loop. apply for_tickers_inv. Qed.

(** The income statement a successful fetch returns is the one the
    provider serves for the ticker. *)
Lemma script_fetch_income v yf ticker income aux :
  script_fetch v yf ticker = Ok (income, aux) ->
  exists stock, yf ticker = Ok stock /\ quarterly_income_stmt stock = Ok income.
Proof.
  destruct v as [|s]; [|destruct s]; simpl;
    unfold RealData.fetch, fetch_tech, fetch_income; intros H;
    bind_inv H; injection H as <- <-; eexists; split; eauto.
Qed.

Lemma script_record_ticker v ticker name income aux col r :
  script_record v ticker name income aux col = Ok r ->
  get "Ticker" r = Some (PStr ticker).
Proof.
  destruct v as [|s]; [|destruct s]; simpl; intros H.
  - destruct aux. apply real_record_fields in H. decompose record H. now subst r.
  - apply tech_record_fields in H. decompose record H. now subst r.
  - apply healthcare_record_fields in H. decompose record H. now subst r.
  - apply financial_record_fields in H. decompose record H. now subst r.
  - apply consumer_record_fields in H. decompose record H. now subst r.
  - apply energy_record_fields in H. decompose record H. now subst r.
Qed.

(** The fetch of a loop against the provider. *)
Lemma script_fetch_served v yf ticker income aux :
  script_fetch v yf ticker = Ok (Some income, aux) <->
  exists stock,
    yf ticker = Ok stock /\
    quarterly_income_stmt stock = Ok (Some income) /\
    side_tables v stock aux.
Proof.
  split.
  - destruct v as [|s]; [|destruct s]; simpl;
      unfold RealData.fetch, fetch_tech, fetch_income; intros H;
      bind_inv H; injection H as -> <-; eexists;
      (split; [reflexivity|]); (split; [assumption|]);
      simpl; eauto.
  - intros (stock & Hy & Hi & Hs).
    destruct v as [|s]; [|destruct s]; simpl in *;
      unfold RealData.fetch, fetch_tech, fetch_income;
      rewrite Hy; cbn [bind]; rewrite Hi; cbn [bind].
    + destruct aux as [balance cashflow], Hs as [Hb Hc]. simpl in Hb, Hc.
      now rewrite Hb, Hc.
    + destruct aux, Hs as [[b Hb] [c Hc]]. now rewrite Hb, Hc.
    + now destruct aux.
    + now destruct aux.
    + now destruct aux.
    + now destruct aux.
Qed.

(** The records of a run are the records of the periods the provider
    serves to the loop, no more and no less. *)
Lemma script_data_served v yf r :
  In r (script_data v yf) <->
  exists ticker name income aux col,
    served v yf ticker name income aux col /\
    script_record v ticker name income aux col = Ok r.
Proof.
  split.
  - intros Hr. apply script_data_inv in Hr.
    destruct Hr as (ticker & name & income & aux & col
                    & Hc & Hf & He & Hcol & Hb).
    exists ticker, name, income, aux, col.
    apply script_fetch_served in Hf.
    repeat split; assumption.
  - intros (ticker & name & income & aux & col & (Hc & Hs & He & Hcol) & Hb).
    apply script_fetch_served in Hs.
    rewrite script_data_loop, for_tickers_flat_map. simpl.
    apply in_flat_map. exists (ticker, name). split; [exact Hc|].
    simpl. unfold for_ticker. rewrite Hs, He.
    rewrite for_periods_flat_map. simpl.
    apply in_flat_map. exists col. split; [exact Hcol|].
    unfold produced. rewrite Hb. now left.
Qed.

(** The scenario on the single-list script: three records, newest
    period first, the gross margin on all three and the net margin on
    the two periods that have a net income. *)
Example scenario_single_list :
  map (fun r => (get "Quarter" r, get "Gross_Margin" r, get "Net_Margin" r))
    (RealData.all_data Sample.yf) =
  [ (Some (PStr "Q4"),
     Some (PFloat (truediv (float_of_Z 40) (float_of_Z 100))),
     Some (PFloat (truediv (float_of_Z 10) (float_of_Z 100))));
    (Some (PStr "Q2"),
     Some (PFloat (truediv (float_of_Z 50) (float_of_Z 200))),
     Some PNone);
    (Some (PStr "Q1"),
     Some (PFloat (truediv (float_of_Z 60) (float_of_Z 300))),
     Some (PFloat (truediv (float_of_Z 30) (float_of_Z 300)))) ].
Proof. vm_compute. reflexivity. Qed.

(** The same table in the technology section: the net margin of the
    period without net income is the NaN of the division, where the
    single-list script stores [None]. *)
Example scenario_tech_sector :
  map (fun r => (get "Quarter" r, get "Net_Income" r, get "Net_Margin" r))
    (tech_data Sample.yf) =
  [ (Some (PStr "Q4"), Some (PInt 10),
     Some (PFloat (truediv (float_of_Z 10) (float_of_Z 100))));
    (Some (PStr "Q2"), Some PNone, Some (PFloat nan));
    (Some (PStr "Q1"), Some (PInt 30),
     Some (PFloat (truediv (float_of_Z 30) (float_of_Z 300)))) ].
Proof. vm_compute. reflexivity. Qed.

(** The three ways a period fails in the single-list script: a cell
    that [int] rejects, a period the balance sheet does not have, a
    column that is not a date. *)
Example period_failures :
  RealData.record "AAPL" "Apple Inc" Sample.income_inf (None, None) Sample.may
    = Raise OverflowError /\
  RealData.record "AAPL" "Apple Inc" Sample.income
    (Some (mkDataFrame ["Total Assets"] [Sample.nov] [[float_of_Z 7]]), None)
    Sample.may = Raise KeyError /\
  RealData.record "AAPL" "Apple Inc"
    (mkDataFrame ["Total Revenue"] [NaT] [[float_of_Z 1]]) (None, None) NaT
    = Raise ValueError.
Proof. repeat split; vm_compute; reflexivity. Qed.

(** ** C4: the quarter label *)

Lemma sector_record_quarter s ticker name income u col r :
  Comprehensive.sector_record s ticker name income u col = Ok r ->
  get "Quarter" r = Some (PStr (quarter_label col)).
Proof.
  destruct s; simpl; intros H.
  - apply tech_record_fields in H. decompose record H. now subst r.
  - apply healthcare_record_fields in H. decompose record H. now subst r.
  - apply financial_record_fields in H. decompose record H. now subst r.
  - apply consumer_record_fields in H. decompose record H. now subst r.
  - apply energy_record_fields in H. decompose record H. now subst r.
Qed.

Lemma real_record_quarter ticker name income aux col r :
  RealData.record ticker name income aux col = Ok r ->
  get "Quarter" r = Some (PStr (quarter_label col)).
Proof.
  destruct aux as [balance cashflow]. intros H.
  apply real_record_fields in H. decompose record H. now subst r.
Qed.

(** C4.  For a period whose calendar month is [m] (1 to 12), in any year,
    the quarter label is ["Q"] followed by [(m - 1) div 3 + 1]: ["Q1"]
    for January-March, ["Q2"] for April-June, ["Q3"] for July-September
    and ["Q4"] for October-December; and that label is the [Quarter]
    field of the record of the period, in the single-list variant and in
    every sector of the multi-sector variant. *)
Theorem quarter_label_from_month (y m d : Z) :
  1 <= m <= 12 ->
  quarter_label (Stamp y m d) = "Q" ++ str ((m - 1) / 3 + 1) /\
  (1 <= m <= 3 -> quarter_label (Stamp y m d) = "Q1") /\
  (4 <= m <= 6 -> quarter_label (Stamp y m d) = "Q2") /\
  (7 <= m <= 9 -> quarter_label (Stamp y m d) = "Q3") /\
  (10 <= m <= 12 -> quarter_label (Stamp y m d) = "Q4") /\
  (forall ticker name income aux r,
      RealData.record ticker name income aux (Stamp y m d) = Ok r ->
      get "Quarter" r = Some (PStr (quarter_label (Stamp y m d)))) /\
  (forall s ticker name income u r,
      Comprehensive.sector_record s ticker name income u (Stamp y m d) = Ok r ->
      get "Quarter" r = Some (PStr (quarter_label (Stamp y m d)))).
Proof.
  intros Hm.
  split; [reflexivity|].
  assert (Hq : forall q, 3 * q - 2 <= m <= 3 * q ->
                         quarter_label (Stamp y m d) = "Q" ++ str q).
  { intros q Hq. unfold quarter_label. f_equal. f_equal.
    assert (Hdiv : (m - 1) / 3 = q - 1)
      by (symmetry; apply (Z.div_unique (m - 1) 3 (q - 1) (m - 1 - 3 * (q - 1))); lia).
    lia. }
  repeat split.
  - intros H. now apply (Hq 1).
  - intros H. now apply (Hq 2).
  - intros H. now apply (Hq 3).
  - intros H. now apply (Hq 4).
  - intros. eapply real_record_quarter; eassumption.
  - intros. eapply sector_record_quarter; eassumption.
Qed.

Lemma quarter_label_from_month_witness :
  1 <= 5 <= 12 /\ quarter_label (Stamp 2024 5 31) = "Q2".
Proof.
  assert (Hm : 1 <= 5 <= 12) by lia.
  split; [exact Hm|].
  apply (quarter_label_from_month 2024 5 31 Hm). lia.
Defined.

(** ** C5: the number of records *)

(** C5.  In every run the number of records produced is at most the
    number of tickers of the mapping times the window: 8 periods per
    ticker in the single-list variant (10 tickers, at most 80 records),
    6 in every sector of the multi-sector variant. *)
Theorem record_count_bounded (yf : Provider) :
  script_window SingleList = 8%nat /\
  (forall s, script_window (MultiSector s) = 6%nat) /\
  (forall v,
      (List.length (script_data v yf)
       <= List.length (script_companies v) * script_window v)%nat) /\
  (List.length (RealData.all_data yf) <= 10 * 8)%nat /\
  (forall s,
      (List.length (sector_data s yf)
       <= List.length (sector_companies s) * 6)%nat).
Proof.
  assert (H : forall v,
             (List.length (script_data v yf)
              <= List.length (script_companies v) * script_window v)%nat).
  { intros v. rewrite script_data_loop. apply for_tickers_length. }
  repeat split; try reflexivity; try exact H.
  - exact (H SingleList).
  - intros s. exact (H (MultiSector s)).
Qed.

(** ** C6: a ticker without income statement *)

Lemma for_ticker_no_income v yf ticker stock name data :
  yf ticker = Ok stock ->
  no_income_statement stock ->
  for_ticker (script_window v) (script_fetch v yf) (script_record v)
    ticker name data = data.
Proof.
  intros Hy Hno. unfold for_ticker.
  destruct (script_fetch v yf ticker) as [[[income|] aux]|e] eqn:Hf;
    try reflexivity.
  apply script_fetch_income in Hf. destruct Hf as [stock' [Hy' Hi]].
  rewrite Hy in Hy'. injection Hy' as <-.
  destruct Hno as [Hnone|[income' [Hsome Hempty]]].
  - rewrite Hnone in Hi. discriminate.
  - rewrite Hsome in Hi. injection Hi as ->. now rewrite Hempty.
Qed.

(** C6.  When the income statement of a ticker is absent or empty, the
    iteration for that ticker leaves the accumulated records as they
    are and raises nothing (the loop is a total function of the
    accumulator), the loop goes on with the tickers that follow, and no
    record of the run carries that ticker.  This holds in the
    single-list variant and in every sector of the multi-sector one. *)
Theorem ticker_without_income_skipped
    (v : Script) (yf : Provider) (ticker : string) (stock : Ticker) :
  yf ticker = Ok stock ->
  no_income_statement stock ->
  (forall name data,
      for_ticker (script_window v) (script_fetch v yf) (script_record v)
        ticker name data = data) /\
  (forall name rest data,
      for_tickers (script_window v) (script_fetch v yf) (script_record v)
        ((ticker, name) :: rest) data =
      for_tickers (script_window v) (script_fetch v yf) (script_record v)
        rest data) /\
  (forall r, In r (script_data v yf) -> get "Ticker" r <> Some (PStr ticker)).
Proof.
  intros Hy Hno.
  assert (Hskip : forall name data,
             for_ticker (script_window v) (script_fetch v yf) (script_record v)
               ticker name data = data)
    by (intros; eapply for_ticker_no_income; eassumption).
  split; [exact Hskip|]. split.
  - intros name rest data. simpl. now rewrite Hskip.
  - intros r Hr Hget.
    apply script_data_inv in Hr.
    destruct Hr as (ticker' & name & income & aux & col & _ & Hf & He & _ & Hb).
    apply script_record_ticker in Hb. rewrite Hb in Hget.
    injection Hget as ->.
    apply script_fetch_income in Hf. destruct Hf as [stock' [Hy' Hi]].
    rewrite Hy in Hy'. injection Hy' as <-.
    destruct Hno as [Hnone|[income' [Hsome Hempty]]].
    + rewrite Hnone in Hi. discriminate.
    + rewrite Hsome in Hi. injection Hi as ->. rewrite Hempty in He.
      discriminate.
Qed.

Lemma ticker_without_income_skipped_witness :
  Sample.yf "MSFT" = Ok (mkTicker (Ok None) (Ok None) (Ok None)) /\
  no_income_statement (mkTicker (Ok None) (Ok None) (Ok None)) /\
  (forall r, In r (RealData.all_data Sample.yf) ->
             get "Ticker" r <> Some (PStr "MSFT")).
Proof.
  assert (Hy : Sample.yf "MSFT" = Ok (mkTicker (Ok None) (Ok None) (Ok None)))
    by reflexivity.
  assert (Hno : no_income_statement (mkTicker (Ok None) (Ok None) (Ok None)))
    by (left; reflexivity).
  split; [exact Hy|]. split; [exact Hno|].
  apply (ticker_without_income_skipped SingleList Sample.yf "MSFT" _ Hy Hno).
Defined.

(** ** C7: a period that fails *)

Lemma for_periods_skip {Aux : Type}
    (build : string -> string -> DataFrame -> Aux -> Timestamp -> result Row)
    ticker name income aux col e before after data :
  build ticker name income aux col = Raise e ->
  for_periods build ticker name income aux (before ++ col :: after) data =
  for_periods build ticker name income aux (before ++ after) data.
Proof.
  intros Hb.
  rewrite !for_periods_flat_map, !flat_map_app. simpl.
  unfold produced at 2. now rewrite Hb.
Qed.

(** C7.  When the body of one period raises, whatever the exception,
    that period contributes no record and leaves the accumulated records
    as they are, and the periods after it are processed as if it were
    not in the window: the ticker's records are those of the other
    periods, in order.  This holds in the single-list variant and in
    every sector of the multi-sector one. *)
Theorem failed_period_skipped_alone
    (v : Script) (ticker name : string) (income : DataFrame) (aux : aux_of v)
    (col : Timestamp) (e : exn) :
  script_record v ticker name income aux col = Raise e ->
  (forall after data,
      for_periods (script_record v) ticker name income aux (col :: after) data =
      for_periods (script_record v) ticker name income aux after data) /\
  (forall before after data,
      for_periods (script_record v) ticker name income aux
        (before ++ col :: after) data =
      for_periods (script_record v) ticker name income aux
        (before ++ after) data).
Proof.
  intros Hb. split.
  - intros after data. simpl. now rewrite Hb.
  - intros before after data. eapply for_periods_skip; eassumption.
Qed.

Lemma failed_period_skipped_alone_witness :
  RealData.record "AAPL" "Apple Inc" Sample.income_inf (None, None) Sample.may
    = Raise OverflowError /\
  for_periods RealData.record "AAPL" "Apple Inc" Sample.income_inf
    (None, None) ([Sample.nov] ++ Sample.may :: [Sample.feb]) [] =
  for_periods RealData.record "AAPL" "Apple Inc" Sample.income_inf
    (None, None) ([Sample.nov] ++ [Sample.feb]) [].
Proof.
  assert (Hb : RealData.record "AAPL" "Apple Inc" Sample.income_inf
                 (None, None) Sample.may = Raise OverflowError)
    by (vm_compute; reflexivity).
  split; [exact Hb|].
  exact (proj2 (failed_period_skipped_alone SingleList "AAPL" "Apple Inc"
                  Sample.income_inf (None, None) Sample.may OverflowError Hb)
           [Sample.nov] [Sample.feb] []).
Defined.

(** ** C1: the derived ratios *)

(** One goal per entry of a literal table of fields. *)
Ltac each_field H :=
  cbn [In] in H;
  repeat (destruct H as [H|H]; [injection H as <- <-|]);
  [..|contradiction].




Lemma margin_gate num den :
  missing_or_zero num \/ missing_or_zero den ->
  float_or_none (margin num den) = PNone /\ ratio_or_none num den = PNone.
Proof.
  unfold float_or_none, margin, ratio_or_none, missing_or_zero, truthy.
  intros [H|H].
  - destruct num as [n|]; [rewrite H|]; simpl;
      rewrite andb_false_r; split; reflexivity.
  - destruct den as [d|]; [rewrite H|]; simpl; split; reflexivity.
Qed.

Lemma margin_computed n d :
  iszero n = false -> iszero d = false ->
  float_or_none (margin (Some n) (Some d)) =
    (if isnan (truediv n d) then PNone else PFloat (truediv n d)) /\
  ratio_or_none (Some n) (Some d) = PFloat (truediv n d).
Proof.
  unfold float_or_none, margin, ratio_or_none, truthy, notna.
  intros -> ->. cbn -[truediv].
  now destruct (isnan (truediv n d)).
Qed.

Lemma real_ratio_exact num den :
  ratio_exact SingleList num den (Some (float_or_none (margin num den))).
Proof.
  split.
  - intros H. now rewrite (proj1 (margin_gate num den H)).
  - intros n d -> -> Hn Hd. now rewrite (proj1 (margin_computed n d Hn Hd)).
Qed.

Lemma sector_ratio_exact s num den :
  ratio_exact (MultiSector s) num den (Some (ratio_or_none num den)).
Proof.
  split.
  - intros H. now rewrite (proj2 (margin_gate num den H)).
  - intros n d -> -> Hn Hd. now rewrite (proj2 (margin_computed n d Hn Hd)).
Qed.

Lemma script_record_ratio_exact v ticker name income aux col r :
  script_record v ticker name income aux col = Ok r ->
  forall key num,
    In (key, num) (ratio_fields v) ->
    ratio_exact v (cell income num col) (cell income "Total Revenue" col)
      (get key r).
Proof.
  destruct v as [|s]; [|destruct s]; simpl; intros H key num Hin.
  - destruct aux. apply real_record_fields in H. decompose record H. subst r.
    each_field Hin; apply real_ratio_exact.
  - apply tech_record_fields in H. decompose record H. subst r.
    each_field Hin; apply sector_ratio_exact.
  - apply healthcare_record_fields in H. decompose record H. subst r.
    each_field Hin; apply sector_ratio_exact.
  - apply financial_record_fields in H. decompose record H. subst r.
    each_field Hin; apply sector_ratio_exact.
  - apply consumer_record_fields in H. decompose record H. subst r.
    each_field Hin; apply sector_ratio_exact.
  - apply energy_record_fields in H. decompose record H. subst r.
    each_field Hin; apply sector_ratio_exact.
Qed.

Lemma real_ratio_amended num den :
  ratio_amended SingleList num den (Some (float_or_none (margin num den))).
Proof.
  split; [apply float_or_none_ratio|]. split.
  - intros H. f_equal. apply float_or_none_absent.
    destruct H as [->|(d & -> & Hd)]; simpl; auto.
  - intros ->. f_equal. apply float_or_none_absent. simpl. auto.
Qed.

Lemma sector_ratio_amended s num den :
  ratio_amended (MultiSector s) num den (Some (ratio_or_none num den)).
Proof.
  split; [apply ratio_or_none_ratio|]. split.
  - intros H. f_equal. apply margin_gate. right.
    destruct H as [->|(d & -> & Hd)]; simpl; auto.
  - intros ->. split.
    + intros H. f_equal. apply margin_gate. now left.
    + intros n -> Hn. f_equal.
      rewrite (proj2 (margin_computed n nan Hn eq_refl)).
      now rewrite truediv_nan_r.
Qed.

Lemma script_record_ratio_amended v ticker name income aux col r :
  script_record v ticker name income aux col = Ok r ->
  forall key num,
    In (key, num) (ratio_fields v) ->
    ratio_amended v (cell income num col) (cell income "Total Revenue" col)
      (get key r).
Proof.
  destruct v as [|s]; [|destruct s]; simpl; intros H key num Hin.
  - destruct aux. apply real_record_fields in H. decompose record H. subst r.
    each_field Hin; apply real_ratio_amended.
  - apply tech_record_fields in H. decompose record H. subst r.
    each_field Hin; apply sector_ratio_amended.
  - apply healthcare_record_fields in H. decompose record H. subst r.
    each_field Hin; apply sector_ratio_amended.
  - apply financial_record_fields in H. decompose record H. subst r.
    each_field Hin; apply sector_ratio_amended.
  - apply consumer_record_fields in H. decompose record H. subst r.
    each_field Hin; apply sector_ratio_amended.
  - apply energy_record_fields in H. decompose record H. subst r.
    each_field Hin; apply sector_ratio_amended.
Qed.

(** C1, as stated, fails in the multi-sector variant.  With a revenue
    cell that is NaN and a gross profit of 5, the technology section
    passes the truth test (a NaN is truthy), divides, and stores the
    NaN of the division in the gross margin: a computed value where
    the denominator is absent. *)
Lemma ratio_as_stated_fails :
  exists r,
    In r (tech_data yf_nan_revenue) /\
    tech_record "AAPL" "Apple Inc" income_nan_revenue tt Sample.nov = Ok r /\
    cell income_nan_revenue "Total Revenue" Sample.nov = Some nan /\
    cell income_nan_revenue "Gross Profit" Sample.nov = Some (float_of_Z 5) /\
    get "Gross_Margin" r = Some (PFloat nan) /\
    ~ ratio_as_stated
        (cell income_nan_revenue "Gross Profit" Sample.nov)
        (cell income_nan_revenue "Total Revenue" Sample.nov)
        (get "Gross_Margin" r).
Proof.
  exists (nth 0 (tech_data yf_nan_revenue) []).
  split; [vm_compute; left; reflexivity|].
  split; [vm_compute; reflexivity|].
  assert (Hd : cell income_nan_revenue "Total Revenue" Sample.nov = Some nan)
    by (vm_compute; reflexivity).
  assert (Hf : get "Gross_Margin" (nth 0 (tech_data yf_nan_revenue) [])
               = Some (PFloat nan))
    by (vm_compute; reflexivity).
  split; [exact Hd|]. split; [vm_compute; reflexivity|].
  split; [exact Hf|].
  intros [_ H]. rewrite Hd, Hf in H.
  assert (Habs : absent_or_zero (Some nan)) by (simpl; auto).
  specialize (H Habs). discriminate H.
Qed.

(** C1, amended.  The records of a run are exactly the records of the
    periods the provider serves to the loop, and in the record of any
    period each ratio field (gross margin, operating margin, net margin,
    R&D intensity, as the variant has them) is [None] or the float
    quotient of the numerator's cell by the revenue cell of that period,
    both rows being in the table and the revenue not zero.  The field is
    [None] whenever the revenue has no row or is zero.  When the revenue
    cell is NaN the single-list variant stores [None]; the multi-sector
    variant stores [None] if the numerator has no row or is zero, and
    otherwise the NaN that the division gives. *)
Theorem ratio_fields_are_quotients (v : Script) (yf : Provider) :
  (forall r,
      In r (script_data v yf) <->
      exists ticker name income aux col,
        served v yf ticker name income aux col /\
        script_record v ticker name income aux col = Ok r) /\
  (forall ticker name income aux col r,
      script_record v ticker name income aux col = Ok r ->
      forall key num,
        In (key, num) (ratio_fields v) ->
        ratio_field (cell income num col) (cell income "Total Revenue" col)
          (get key r) /\
        (cell income "Total Revenue" col = None \/
         (exists d, cell income "Total Revenue" col = Some d /\
                    iszero d = true) ->
         get key r = Some PNone) /\
        (cell income "Total Revenue" col = Some nan ->
         match v with
         | SingleList => get key r = Some PNone
         | MultiSector _ =>
             (missing_or_zero (cell income num col) ->
              get key r = Some PNone) /\
             (forall n, cell income num col = Some n -> iszero n = false ->
                        get key r = Some (PFloat nan))
         end)).
Proof.
  split.
  - intros r. apply script_data_served.
  - intros ticker name income aux col r Hb key num Hin.
    exact (script_record_ratio_amended v _ _ _ _ _ _ Hb key num Hin).
Qed.

Lemma ratio_fields_are_quotients_witness :
  exists r,
    In r (script_data (MultiSector Tech) yf_nan_revenue) /\
    script_record (MultiSector Tech) "AAPL" "Apple Inc" income_nan_revenue tt
      Sample.nov = Ok r /\
    get "Gross_Margin" r = Some (PFloat nan) /\
    get "Net_Margin" r = Some PNone.
Proof.
  pose (r := nth 0 (tech_data yf_nan_revenue) []).
  assert (Hb : script_record (MultiSector Tech) "AAPL" "Apple Inc"
                 income_nan_revenue tt Sample.nov = Ok r)
    by (vm_compute; reflexivity).
  assert (Hs : served (MultiSector Tech) yf_nan_revenue "AAPL" "Apple Inc"
                 income_nan_revenue tt Sample.nov).
  { split; [simpl; auto|]. split; [|split; [reflexivity|simpl; auto]].
    eexists. split; [reflexivity|]. split; [reflexivity|].
    split; eexists; reflexivity. }
  assert (Hd : cell income_nan_revenue "Total Revenue" Sample.nov = Some nan)
    by (vm_compute; reflexivity).
  destruct (ratio_fields_are_quotients (MultiSector Tech) yf_nan_revenue)
    as [Hrun Hrec].
  exists r. split.
  - apply Hrun. exists "AAPL", "Apple Inc", income_nan_revenue, tt, Sample.nov.
    split; [exact Hs|exact Hb].
  - split; [exact Hb|]. split.
    + destruct (Hrec _ _ _ _ _ _ Hb "Gross_Margin" "Gross Profit")
        as (_ & _ & H3); [simpl; auto|].
      apply (proj2 (H3 Hd) (float_of_Z 5));
        [vm_compute; reflexivity|vm_compute; reflexivity].
    + destruct (Hrec _ _ _ _ _ _ Hb "Net_Margin" "Net Income")
        as (_ & _ & H3); [simpl; auto|].
      apply (proj1 (H3 Hd)). vm_compute. exact I.
Defined.

(** ** C2: the EBITDA field *)

Lemma ebitda_of_source income col ebitda :
  RealData.ebitda_of income col (cell income "Operating Income" col)
    = Ok ebitda ->
  ebitda = ebitda_source income col.
Proof.
  unfold RealData.ebitda_of, ebitda_source.
  destruct (in_index "EBITDA" income) eqn:Hi.
  - unfold cell, item. rewrite Hi.
    destruct (loc income "EBITDA" col); simpl; [|discriminate].
    now intros [= <-].
  - destruct (cell income "Operating Income" col); now intros [= <-].
Qed.

Lemma real_record_ebitda ticker name income aux col r :
  RealData.record ticker name income aux col = Ok r ->
  raw_field (ebitda_source income col) (get "EBITDA" r).
Proof.
  destruct aux as [balance cashflow]. intros H.
  apply real_record_fields in H.
  destruct H as (date & ebitda & f1 & f2 & f_ebitda & f4 & f5 & f6 & f7 & f8
                 & f9 & _ & He & _ & _ & Hf & _ & _ & _ & _ & _ & _ & ->).
  apply ebitda_of_source in He. subst ebitda.
  now apply int_or_none_raw.
Qed.

(** C2, as stated, fails.  With an EBITDA row whose cell is NaN and an
    operating income of 5, the stated rule falls back to the operating
    income; the record of the single-list run has no EBITDA. *)
Lemma ebitda_as_stated_fails :
  exists r,
    In r (RealData.all_data Sample.yf_nan_ebitda) /\
    RealData.record "AAPL" "Apple Inc" Sample.income_nan_ebitda (None, None)
      Sample.nov = Ok r /\
    cell Sample.income_nan_ebitda "EBITDA" Sample.nov = Some nan /\
    cell Sample.income_nan_ebitda "Operating Income" Sample.nov
      = Some (float_of_Z 5) /\
    get "EBITDA" r = Some PNone /\
    get "Operating_Income" r = Some (PInt 5) /\
    ~ ebitda_as_stated
        (cell Sample.income_nan_ebitda "EBITDA" Sample.nov)
        (cell Sample.income_nan_ebitda "Operating Income" Sample.nov)
        (get "EBITDA" r).
Proof.
  exists (nth 0 (RealData.all_data Sample.yf_nan_ebitda) []).
  split; [vm_compute; left; reflexivity|].
  assert (He : cell Sample.income_nan_ebitda "EBITDA" Sample.nov = Some nan)
    by (vm_compute; reflexivity).
  assert (Ho : cell Sample.income_nan_ebitda "Operating Income" Sample.nov
               = Some (float_of_Z 5))
    by (vm_compute; reflexivity).
  assert (Hf : get "EBITDA" (nth 0 (RealData.all_data Sample.yf_nan_ebitda) [])
               = Some PNone)
    by (vm_compute; reflexivity).
  repeat (split; [first [assumption | vm_compute; reflexivity]|]).
  rewrite He, Ho, Hf. unfold ebitda_as_stated.
  replace (notna (Some nan)) with false by reflexivity.
  replace (notna (Some (float_of_Z 5))) with true by (vm_compute; reflexivity).
  unfold raw_field.
  replace (isnan (float_of_Z 5)) with false by (vm_compute; reflexivity).
  intros [z [_ Hz]]. discriminate Hz.
Qed.

(** C2, amended.  The records of the single-list run are exactly the
    records of the periods the provider serves, and in the record of
    any period the EBITDA field is decided by the rows of the income
    statement: when the table has an EBITDA row, the field is the
    integer truncation of that row's cell for the period, and is [None]
    when the cell is NaN, whatever the operating income; when the table
    has no EBITDA row, the field is the integer truncation of the
    operating-income cell, and [None] when that row is missing or its
    cell is NaN.  It takes no other value. *)
Theorem ebitda_follows_rows (yf : Provider) :
  (forall r,
      In r (RealData.all_data yf) <->
      exists ticker name income aux col,
        served SingleList yf ticker name income aux col /\
        RealData.record ticker name income aux col = Ok r) /\
  (forall ticker name income aux col r,
      RealData.record ticker name income aux col = Ok r ->
      ebitda_by_row income col (get "EBITDA" r)).
Proof.
  split.
  - intros r. apply (script_data_served SingleList).
  - intros ticker name income aux col r Hb.
    apply real_record_ebitda in Hb.
    unfold ebitda_by_row. unfold ebitda_source in Hb.
    now destruct (in_index "EBITDA" income).
Qed.

Lemma ebitda_follows_rows_witness :
  exists r,
    In r (RealData.all_data Sample.yf_nan_ebitda) /\
    RealData.record "AAPL" "Apple Inc" Sample.income_nan_ebitda (None, None)
      Sample.nov = Ok r /\
    get "EBITDA" r = Some PNone.
Proof.
  pose (r := nth 0 (RealData.all_data Sample.yf_nan_ebitda) []).
  assert (Hb : RealData.record "AAPL" "Apple Inc" Sample.income_nan_ebitda
                 (None, None) Sample.nov = Ok r)
    by (vm_compute; reflexivity).
  assert (Hs : served SingleList Sample.yf_nan_ebitda "AAPL" "Apple Inc"
                 Sample.income_nan_ebitda (None, None) Sample.nov).
  { split; [simpl; auto|]. split; [|split; [reflexivity|simpl; auto]].
    eexists. split; [reflexivity|]. split; [reflexivity|].
    split; reflexivity. }
  destruct (ebitda_follows_rows Sample.yf_nan_ebitda) as [Hrun Hrec].
  exists r. split.
  - apply Hrun.
    exists "AAPL", "Apple Inc", Sample.income_nan_ebitda, (None, None),
      Sample.nov.
    split; [exact Hs|exact Hb].
  - split; [exact Hb|].
    pose proof (Hrec _ _ _ _ _ _ Hb) as He.
    unfold ebitda_by_row in He.
    assert (Hi : in_index "EBITDA" Sample.income_nan_ebitda = true)
      by reflexivity.
    assert (Hc : cell Sample.income_nan_ebitda "EBITDA" Sample.nov = Some nan)
      by (vm_compute; reflexivity).
    rewrite Hi, Hc in He. exact He.
Defined.

(** ** C9: integer line items, float ratios *)

Lemma script_record_raw v ticker name income aux col r :
  script_record v ticker name income aux col = Ok r ->
  forall key source,
    In (key, source) (raw_sources v income aux col) ->
    raw_field source (get key r).
Proof.
  destruct v as [|s]; [|destruct s]; simpl; intros H key source Hin.
  - destruct aux as [balance cashflow]. apply real_record_fields in H.
    destruct H as (date & ebitda & f1 & f2 & f3 & f4 & f5 & f6 & f7 & f8 & f9
                   & _ & He & H1 & H2 & H3 & H4 & H5 & H6 & H7 & H8 & H9 & ->).
    apply ebitda_of_source in He. subst ebitda.
    cbn [fst snd] in Hin.
    each_field Hin; now apply int_or_none_raw.
  - apply tech_record_fields in H. decompose record H. subst r.
    each_field Hin; now apply int_or_none_raw.
  - apply healthcare_record_fields in H. decompose record H. subst r.
    each_field Hin; now apply int_or_none_raw.
  - apply financial_record_fields in H. decompose record H. subst r.
    each_field Hin; now apply int_or_none_raw.
  - apply consumer_record_fields in H. decompose record H. subst r.
    each_field Hin; now apply int_or_none_raw.
  - apply energy_record_fields in H. decompose record H. subst r.
    each_field Hin; now apply int_or_none_raw.
Qed.




(** The quotient of the cells is not the quotient of their
    truncations: 1.5 / 2.5 against 1 / 2. *)
Example quotient_of_cells_not_of_truncations :
  int (half 3) = Ok 1 /\ int (half 5) = Ok 2 /\
  truediv (half 3) (half 5) <> truediv (float_of_Z 1) (float_of_Z 2).
Proof.
  split; [vm_compute; reflexivity|]. split; [vm_compute; reflexivity|].
  vm_compute. discriminate.
Qed.



(** ** C10: the fields of a sector's records *)

Lemma get_None_iff key (r : Row) : get key r = None <-> ~ In key (keys r).
Proof.
  induction r as [|[k v] r IH]; simpl.
  - split; [intros _ []|reflexivity].
  - destruct (String.eqb_spec key k) as [->|Hne].
    + split; [discriminate|]. intros H. exfalso. apply H. now left.
    + rewrite IH. split.
      * intros H [Hk|Hk]; [now apply Hne|now apply H].
      * intros H Hk. apply H. now right.
Qed.

Lemma sector_record_keys s ticker name income u col r :
  sector_record s ticker name income u col = Ok r ->
  keys r = sector_fields s.
Proof.
  destruct s; simpl; intros H.
  - apply tech_record_fields in H. decompose record H. now subst r.
  - apply healthcare_record_fields in H. decompose record H. now subst r.
  - apply financial_record_fields in H. decompose record H. now subst r.
  - apply consumer_record_fields in H. decompose record H. now subst r.
  - apply energy_record_fields in H. decompose record H. now subst r.
Qed.

(** Decide that a literal key is not in a literal list of keys. *)
Ltac not_a_field :=
  let H := fresh in
  intros H; cbn [In] in H;
  repeat (destruct H as [H|H]; [discriminate H|]); exact H.

(** C10.  In the multi-sector variant the keys of every record of a
    sector are exactly the keys of that sector's dict literal, in its
    order; a key outside that list is not in the record.  So healthcare
    records have no operating income and no operating margin, financial
    records no gross profit, gross margin, R&D expense or R&D intensity,
    energy records no operating income, and no sector's record has an
    EBITDA, total-assets, total-debt or cash-flow field. *)
Theorem sector_records_have_fixed_fields (s : Sector) (yf : Provider) (r : Row) :
  In r (sector_data s yf) ->
  keys r = sector_fields s /\
  (forall key, ~ In key (sector_fields s) -> get key r = None) /\
  (forall key,
      In key [ "EBITDA"; "Total_Assets"; "Total_Debt"; "Operating_Cashflow";
               "Free_Cashflow" ] ->
      get key r = None) /\
  (s = Healthcare ->
   get "Operating_Income" r = None /\ get "Operating_Margin" r = None) /\
  (s = Financial ->
   get "Gross_Profit" r = None /\ get "Gross_Margin" r = None /\
   get "RD_Expense" r = None /\ get "RD_Intensity" r = None) /\
  (s = Energy -> get "Operating_Income" r = None).
Proof.
  intros Hr. apply (script_data_inv (MultiSector s)) in Hr.
  destruct Hr as (ticker & name & income & aux & col & _ & _ & _ & _ & Hb).
  simpl in Hb. apply sector_record_keys in Hb.
  assert (Hout : forall key, ~ In key (sector_fields s) -> get key r = None)
    by (intros key Hk; apply get_None_iff; now rewrite Hb).
  split; [exact Hb|]. split; [exact Hout|]. split; [|split; [|split]].
  - intros key Hk. apply Hout. cbn [In] in Hk.
    repeat (destruct Hk as [<-|Hk]; [destruct s; not_a_field|]).
    contradiction.
  - intros ->. split; apply Hout; not_a_field.
  - intros ->. repeat split; apply Hout; not_a_field.
  - intros ->. apply Hout; not_a_field.
Qed.

Lemma sector_records_have_fixed_fields_witness :
  exists r,
    In r (sector_data Healthcare Sample.yf_every) /\
    keys r = sector_fields Healthcare /\
    get "Operating_Income" r = None /\ get "Operating_Margin" r = None.
Proof.
  pose (r := nth 0 (sector_data Healthcare Sample.yf_every) []).
  assert (Hin : In r (sector_data Healthcare Sample.yf_every))
    by (vm_compute; left; reflexivity).
  destruct (sector_records_have_fixed_fields Healthcare Sample.yf_every r Hin)
    as (Hk & _ & _ & Hh & _).
  exists r. split; [exact Hin|]. split; [exact Hk|]. now apply Hh.
Defined.

(** ** C8: the order of the blocks *)

Lemma run_declared stmts elements :
  run stmts elements = (elements ++ map declared stmts)%list.
Proof.
  revert elements.
  induction stmts as [|[b] stmts IH]; intros elements; simpl.
  - now rewrite app_nil_r.
  - unfold run in IH. rewrite IH, <- app_assoc. reflexivity.
Qed.

(** C8.  The list handed to the renderer is the list of the blocks of
    the [append] statements, in the order of the statements: the block
    of the i-th statement is the i-th element passed to [build], for
    every statement, and nothing else is passed.  There are 51 blocks,
    one of them a page break, the 42nd. *)
Theorem blocks_rendered_in_declared_order :
  build_flowables create_pe_deal_memo_pdf = map declared body /\
  (forall i,
      nth_error (build_flowables create_pe_deal_memo_pdf) i =
      option_map declared (nth_error body i)) /\
  List.length (build_flowables create_pe_deal_memo_pdf) = 51%nat /\
  List.length (filter is_page_break (build_flowables create_pe_deal_memo_pdf))
    = 1%nat /\
  nth_error (build_flowables create_pe_deal_memo_pdf) 41 = Some PageBreak /\
  (forall stmts elements,
      run stmts elements = (elements ++ map declared stmts)%list).
Proof.
  assert (H : build_flowables create_pe_deal_memo_pdf = map declared body)
    by (unfold create_pe_deal_memo_pdf; cbn [build_flowables];
        now rewrite run_declared).
  split; [exact H|]. split; [|split; [|split; [|split]]].
  - intros i. rewrite H. apply nth_error_map.
  - rewrite H, length_map. reflexivity.
  - rewrite H. reflexivity.
  - rewrite H. reflexivity.
  - exact run_declared.
Qed.

(** ** C3: the order of the written rows *)

Lemma ascii_compare_refl c : Ascii.compare c c = Eq.
Proof. apply N.compare_refl. Qed.

Lemma ascii_compare_lt_trans a b c :
  Ascii.compare a b = Lt -> Ascii.compare b c = Lt -> Ascii.compare a c = Lt.
Proof.
  unfold Ascii.compare. rewrite !N.compare_lt_iff. apply N.lt_trans.
Qed.

Lemma string_compare_refl s : String.compare s s = Eq.
Proof.
  induction s as [|c s IH]; simpl; [reflexivity|].
  now rewrite ascii_compare_refl.
Qed.

Lemma string_compare_lt_trans a b c :
  String.compare a b = Lt -> String.compare b c = Lt ->
  String.compare a c = Lt.
Proof.
  revert b c.
  induction a as [|x a IH]; intros [|y b] [|z c]; simpl;
    try discriminate; try reflexivity.
  destruct (Ascii.compare x y) eqn:Exy; try discriminate;
    destruct (Ascii.compare y z) eqn:Eyz; try discriminate.
  - apply Ascii.compare_eq_iff in Exy, Eyz. subst.
    rewrite ascii_compare_refl. apply IH.
  - apply Ascii.compare_eq_iff in Exy. subst. now rewrite Eyz.
  - apply Ascii.compare_eq_iff in Eyz. subst. now rewrite Exy.
  - now rewrite (ascii_compare_lt_trans x y z Exy Eyz).
Qed.

Lemma string_leb_trans a b c :
  String.leb a b = true -> String.leb b c = true -> String.leb a c = true.
Proof.
  unfold String.leb.
  destruct (String.compare a b) eqn:Eab; try discriminate;
    destruct (String.compare b c) eqn:Ebc; try discriminate; intros _ _.
  - apply String.compare_eq_iff in Eab, Ebc. subst.
    now rewrite string_compare_refl.
  - apply String.compare_eq_iff in Eab. subst. now rewrite Ebc.
  - apply String.compare_eq_iff in Ebc. subst. now rewrite Eab.
  - now rewrite (string_compare_lt_trans a b c Eab Ebc).
Qed.

Lemma key_leb_total a b : key_leb a b = false -> key_leb b a = true.
Proof.
  destruct a as [[a1 a2] a3], b as [[b1 b2] b3].
  unfold key_leb, String.leb. cbn [fst snd].
  rewrite (String.compare_antisym b1 a1), (Z.compare_antisym a2 b2),
    (String.compare_antisym b3 a3).
  destruct (String.compare a1 b1); simpl; try discriminate; try reflexivity.
  destruct (Z.compare a2 b2); simpl; try discriminate; try reflexivity.
  destruct (String.compare a3 b3); simpl; try discriminate; reflexivity.
Qed.

Lemma key_leb_trans a b c :
  key_leb a b = true -> key_leb b c = true -> key_leb a c = true.
Proof.
  destruct a as [[a1 a2] a3], b as [[b1 b2] b3], c as [[c1 c2] c3].
  unfold key_leb. cbn [fst snd].
  destruct (String.compare a1 b1) eqn:E1; try discriminate;
    destruct (String.compare b1 c1) eqn:E2; try discriminate.
  - apply String.compare_eq_iff in E1, E2. subst.
    rewrite string_compare_refl.
    destruct (Z.compare_spec a2 b2); try discriminate;
      destruct (Z.compare_spec b2 c2); try discriminate; subst.
    + rewrite Z.compare_refl. apply string_leb_trans.
    + intros _ _. now rewrite (proj2 (Z.compare_lt_iff _ _) H0).
    + intros _ _. now rewrite (proj2 (Z.compare_lt_iff _ _) H).
    + intros _ _.
      now rewrite (proj2 (Z.compare_lt_iff _ _) (Z.lt_trans _ _ _ H H0)).
  - apply String.compare_eq_iff in E1. subst. now rewrite E2.
  - apply String.compare_eq_iff in E2. subst. now rewrite E1.
  - now rewrite (string_compare_lt_trans a1 b1 c1 E1 E2).
Qed.

Lemma row_le_trans : forall a b c, row_le a b -> row_le b c -> row_le a c.
Proof. intros a b c. apply key_leb_trans. Qed.

Lemma insert_row_perm r l : Permutation (r :: l) (insert_row r l).
Proof.
  induction l as [|x l IH]; simpl; [reflexivity|].
  destruct (row_leb r x); [reflexivity|].
  rewrite perm_swap. now apply perm_skip.
Qed.

Lemma stable_sort_perm l : Permutation l (stable_sort l).
Proof.
  induction l as [|r l IH]; simpl; [reflexivity|].
  rewrite <- insert_row_perm. now apply perm_skip.
Qed.

Lemma insert_row_sorted r l : Sorted row_le l -> Sorted row_le (insert_row r l).
Proof.
  induction l as [|x l IH]; simpl; intros Hs.
  - repeat constructor.
  - destruct (row_leb r x) eqn:Hrx.
    + constructor; [assumption|]. now constructor.
    + inversion Hs as [|? ? Hl Hhd]; subst.
      constructor; [now apply IH|].
      assert (Hxr : row_le x r) by now apply key_leb_total.
      destruct l as [|y l]; simpl.
      * now constructor.
      * destruct (row_leb r y); constructor; [assumption|].
        now inversion Hhd.
Qed.

Lemma stable_sort_sorted l : Sorted row_le (stable_sort l).
Proof.
  induction l as [|r l IH]; simpl; [constructor|].
  now apply insert_row_sorted.
Qed.

(** With no record the single-list script stops at the sort. *)
Lemma main_without_records yf :
  RealData.all_data yf = [] -> RealData.main yf = Raise KeyError.
Proof. unfold RealData.main. now intros ->. Qed.

(** C3, as stated, fails for the multi-sector variant.  The technology
    section, with one ticker and the periods November, May, February of
    2024 as the provider orders them, writes Q4 before Q2 before Q1. *)
Lemma sector_rows_not_sorted :
  exists out,
    script_csv (MultiSector Tech) Sample.yf = Ok out /\
    map sort_key out =
      [ ("Apple Inc", 2024, "Q4"); ("Apple Inc", 2024, "Q2");
        ("Apple Inc", 2024, "Q1") ] /\
    ~ Sorted row_le out.
Proof.
  exists (sector_data Tech Sample.yf).
  split; [reflexivity|]. split; [vm_compute; reflexivity|].
  intros Hs.
  assert (E : exists a b l, sector_data Tech Sample.yf = a :: b :: l /\
                            row_leb a b = false).
  { do 3 eexists. split; vm_compute; reflexivity. }
  destruct E as (a & b & l & E & Hab).
  rewrite E in Hs.
  inversion Hs as [|? ? _ Hhd]; subst.
  inversion Hhd as [|? ? Hle]; subst.
  unfold row_le in Hle. rewrite Hab in Hle. discriminate.
Qed.

(** C3, amended.  In the single-list variant the rows written are the
    accumulated records sorted by company name, then year, then quarter
    label: a rearrangement of the accumulated records in which every row
    is below every later row in that order.  In the multi-sector variant
    every section writes its accumulated records as they are, in the
    order they were accumulated, without sorting them. *)
Theorem single_list_sorted_sectors_unsorted (yf : Provider) (out : list Row) :
  RealData.main yf = Ok out ->
  Permutation (RealData.all_data yf) out /\
  StronglySorted row_le out /\
  (forall s yf', script_csv (MultiSector s) yf' = Ok (sector_data s yf')).
Proof.
  unfold RealData.main, sort_values.
  destruct (RealData.all_data yf) as [|r l] eqn:E; simpl; [discriminate|].
  intros [= <-]. split; [|split].
  - apply (stable_sort_perm (r :: l)).
  - apply Sorted_StronglySorted; [exact row_le_trans|].
    apply (stable_sort_sorted (r :: l)).
  - reflexivity.
Qed.

Lemma single_list_sorted_sectors_unsorted_witness :
  exists out,
    RealData.main Sample.yf = Ok out /\
    map sort_key out =
      [ ("Apple Inc", 2024, "Q1"); ("Apple Inc", 2024, "Q2");
        ("Apple Inc", 2024, "Q4") ] /\
    Permutation (RealData.all_data Sample.yf) out /\
    StronglySorted row_le out.
Proof.
  pose (out := stable_sort (RealData.all_data Sample.yf)).
  assert (Hm : RealData.main Sample.yf = Ok out) by (vm_compute; reflexivity).
  destruct (single_list_sorted_sectors_unsorted Sample.yf out Hm) as (Hp & Hs & _).
  exists out. split; [exact Hm|]. split; [vm_compute; reflexivity|].
  split; [exact Hp|exact Hs].
Defined.

(** * Further properties of the scripts *)

(** ** Failures of the provider *)

Lemma fetch_raise_skips v yf ticker e :
  script_fetch v yf ticker = Raise e ->
  (forall name data,
      for_ticker (script_window v) (script_fetch v yf) (script_record v)
        ticker name data = data) /\
  (forall name rest data,
      for_tickers (script_window v) (script_fetch v yf) (script_record v)
        ((ticker, name) :: rest) data =
      for_tickers (script_window v) (script_fetch v yf) (script_record v)
        rest data) /\
  (forall r, In r (script_data v yf) -> get "Ticker" r <> Some (PStr ticker)).
Proof.
  intros Hf.
  assert (Hskip : forall name data,
             for_ticker (script_window v) (script_fetch v yf) (script_record v)
               ticker name data = data)
    by (intros; unfold for_ticker; now rewrite Hf).
  split; [exact Hskip|]. split.
  - intros name rest data. simpl. now rewrite Hskip.
  - intros r Hr Hget.
    apply script_data_inv in Hr.
    destruct Hr as (ticker' & name & income & aux & col & _ & Hf' & _ & _ & Hb).
    apply script_record_ticker in Hb. rewrite Hb in Hget.
    injection Hget as ->. rewrite Hf in Hf'. discriminate.
Qed.

Lemma script_fetch_provider_raise v yf ticker e :
  yf ticker = Raise e -> script_fetch v yf ticker = Raise e.
Proof.
  intros Hy. destruct v as [|[]]; simpl;
    unfold RealData.fetch, fetch_tech, fetch_income; now rewrite Hy.
Qed.

Lemma script_fetch_income_raise v yf ticker stock e :
  yf ticker = Ok stock -> quarterly_income_stmt stock = Raise e ->
  script_fetch v yf ticker = Raise e.
Proof.
  intros Hy Hi. destruct v as [|[]]; simpl;
    unfold RealData.fetch, fetch_tech, fetch_income; rewrite Hy; simpl;
    now rewrite Hi.
Qed.

(** X1.  When the provider raises for a ticker, at [yf.Ticker] or when
    the income statement is read, the outer handler catches it: the
    ticker leaves the accumulated records as they are, the loop goes on
    with the next ticker, and no record of the run carries that ticker.
    This holds in all six loops. *)
Theorem provider_failure_skips_ticker
    (v : Script) (yf : Provider) (ticker : string) (e : exn) :
  yf ticker = Raise e \/
  (exists stock, yf ticker = Ok stock /\ quarterly_income_stmt stock = Raise e) ->
  (forall name data,
      for_ticker (script_window v) (script_fetch v yf) (script_record v)
        ticker name data = data) /\
  (forall name rest data,
      for_tickers (script_window v) (script_fetch v yf) (script_record v)
        ((ticker, name) :: rest) data =
      for_tickers (script_window v) (script_fetch v yf) (script_record v)
        rest data) /\
  (forall r, In r (script_data v yf) -> get "Ticker" r <> Some (PStr ticker)).
Proof.
  intros [Hy|(stock & Hy & Hi)]; apply (fetch_raise_skips v yf ticker e).
  - now apply script_fetch_provider_raise.
  - eapply script_fetch_income_raise; eassumption.
Qed.

Lemma provider_failure_skips_ticker_witness :
  Sample.yf "TSLA" = Raise ProviderError /\
  (forall r, In r (RealData.all_data Sample.yf) ->
             get "Ticker" r <> Some (PStr "TSLA")).
Proof.
  assert (Hy : Sample.yf "TSLA" = Raise ProviderError) by reflexivity.
  split; [exact Hy|].
  apply (provider_failure_skips_ticker SingleList Sample.yf "TSLA"
           ProviderError (or_introl Hy)).
Defined.

(** X2.  A failure while reading the balance sheet or the cash-flow
    table, the income statement having been read, skips the whole ticker
    in the two loops that read those tables (the single-list script and
    the technology section, which reads them and does not use them); the
    other four sections never read them and fetch the income statement
    as if nothing had failed. *)
Theorem side_table_failure_skips_ticker
    (yf : Provider) (ticker : string) (stock : Ticker)
    (income : option DataFrame) (e : exn) :
  yf ticker = Ok stock ->
  quarterly_income_stmt stock = Ok income ->
  quarterly_balance_sheet stock = Raise e \/
  ((exists b, quarterly_balance_sheet stock = Ok b) /\
   quarterly_cashflow stock = Raise e) ->
  (forall v, reads_side_tables v = true ->
     script_fetch v yf ticker = Raise e /\
     (forall name data,
         for_ticker (script_window v) (script_fetch v yf) (script_record v)
           ticker name data = data) /\
     (forall r, In r (script_data v yf) ->
                get "Ticker" r <> Some (PStr ticker))) /\
  (forall s, reads_side_tables (MultiSector s) = false ->
     sector_fetch s yf ticker = Ok (income, tt)).
Proof.
  intros Hy Hi Hside. split.
  - intros v Hv.
    assert (Hf : script_fetch v yf ticker = Raise e).
    { destruct v as [|[]]; try discriminate Hv; simpl;
        unfold RealData.fetch, fetch_tech; rewrite Hy; simpl; rewrite Hi; simpl;
        (destruct Hside as [Hb|[[b Hb] Hc]]; rewrite Hb; simpl;
         [reflexivity|now rewrite Hc]). }
    split; [exact Hf|].
    destruct (fetch_raise_skips v yf ticker e Hf) as (H1 & _ & H3).
    split; assumption.
  - intros s Hs. destruct s; try discriminate Hs; simpl;
      unfold fetch_income; rewrite Hy; simpl; now rewrite Hi.
Qed.

Lemma side_table_failure_skips_ticker_witness :
  tech_data Cases.yf_no_balance = [] /\
  sector_fetch Healthcare Cases.yf_no_balance "JNJ"
    = Ok (Some Sample.income, tt).
Proof.
  assert (Hy : Cases.yf_no_balance "JNJ" = Ok Cases.stock_no_balance)
    by reflexivity.
  assert (Hi : quarterly_income_stmt Cases.stock_no_balance
               = Ok (Some Sample.income))
    by reflexivity.
  assert (Hb : quarterly_balance_sheet Cases.stock_no_balance
               = Raise ProviderError)
    by reflexivity.
  destruct (side_table_failure_skips_ticker Cases.yf_no_balance "JNJ"
              Cases.stock_no_balance _ ProviderError Hy Hi (or_introl Hb))
    as [_ H].
  split; [vm_compute; reflexivity|].
  apply (H Healthcare). reflexivity.
Defined.

(** ** A run without records *)

Lemma for_tickers_nothing v yf companies :
  (forall ticker name, In (ticker, name) companies -> yields_nothing v yf ticker) ->
  for_tickers (script_window v) (script_fetch v yf) (script_record v)
    companies [] = [].
Proof.
  intros H. rewrite for_tickers_flat_map. simpl.
  induction companies as [|[ticker name] companies IH]; simpl; [reflexivity|].
  rewrite IH by (intros t n Hin; apply (H t n); now right).
  rewrite app_nil_r.
  specialize (H ticker name (or_introl eq_refl)).
  unfold yields_nothing in H. unfold for_ticker.
  destruct (script_fetch v yf ticker) as [[[income|] aux]|e]; try reflexivity.
  now rewrite H.
Qed.

(** X3.  The single-list script stops with a KeyError at
    [df.sort_values] exactly when no record was accumulated, and then
    writes no file; otherwise it writes as many rows as were
    accumulated.  In particular it stops when every ticker of the
    mapping failed or had no income statement.  A section of the
    multi-sector script in the same situation writes a file without
    rows and raises nothing. *)
Theorem run_without_records (yf : Provider) :
  (RealData.main yf = Raise KeyError <-> RealData.all_data yf = []) /\
  (forall out, RealData.main yf = Ok out ->
     out <> [] /\ List.length out = List.length (RealData.all_data yf)) /\
  ((forall ticker name, In (ticker, name) RealData.companies ->
      yields_nothing SingleList yf ticker) ->
   RealData.main yf = Raise KeyError) /\
  (forall s,
     (forall ticker name, In (ticker, name) (sector_companies s) ->
        yields_nothing (MultiSector s) yf ticker) ->
     script_csv (MultiSector s) yf = Ok []).
Proof.
  split; [|split; [|split]].
  - unfold RealData.main, sort_values.
    destruct (RealData.all_data yf) as [|r l]; simpl.
    + split; reflexivity.
    + split; discriminate.
  - intros out. unfold RealData.main, sort_values.
    destruct (RealData.all_data yf) as [|r l] eqn:E; cbn [bind];
      [discriminate|].
    intros [= <-].
    pose proof (stable_sort_perm (r :: l)) as Hp.
    split.
    + intros Hnil. cbn [stable_sort] in Hp. rewrite Hnil in Hp.
      apply Permutation_sym, Permutation_nil in Hp. discriminate.
    + symmetry. now apply Permutation_length.
  - intros H. apply main_without_records.
    exact (for_tickers_nothing SingleList yf RealData.companies H).
  - intros s H. simpl. unfold sector_csv, to_csv. f_equal.
    rewrite <- (for_tickers_nothing (MultiSector s) yf (sector_companies s) H).
    apply (script_data_loop (MultiSector s)).
Qed.

Lemma run_without_records_witness :
  RealData.main Cases.yf_down = Raise KeyError /\
  script_csv (MultiSector Energy) Cases.yf_down = Ok [].
Proof.
  destruct (run_without_records Cases.yf_down) as (_ & _ & H1 & H2).
  split.
  - apply H1. intros ticker name _. exact I.
  - apply H2. intros ticker name _. exact I.
Defined.

(** ** The identity fields of a record *)

Lemma strftime_stamp col date :
  strftime col = Ok date ->
  exists y m d,
    col = Stamp y m d /\
    date = str y ++ "-" ++ zfill 2 (str m) ++ "-" ++ zfill 2 (str d).
Proof.
  destruct col as [y m d|]; cbn [strftime]; [|discriminate].
  destruct ((1 <=? y) && (y <=? 9999)); [|discriminate].
  intros [= <-]. now exists y, m, d.
Qed.

Lemma strftime_year y m d date :
  strftime (Stamp y m d) = Ok date -> 1 <= y <= 9999.
Proof.
  cbn [strftime].
  destruct ((1 <=? y) && (y <=? 9999)) eqn:E; [|discriminate].
  intros _. apply andb_true_iff in E. lia.
Qed.

Lemma script_record_identity v ticker name income aux col r :
  script_record v ticker name income aux col = Ok r ->
  exists y m d,
    col = Stamp y m d /\
    get "Company" r = Some (PStr name) /\
    get "Ticker" r = Some (PStr ticker) /\
    get "Year" r = Some (PInt y) /\
    get "Quarter" r = Some (PStr (quarter_label (Stamp y m d))) /\
    get "Date" r =
      Some (PStr (str y ++ "-" ++ zfill 2 (str m) ++ "-"
                  ++ zfill 2 (str d))).
Proof.
  assert (Hgen : forall date rest,
             strftime col = Ok date ->
             r = ("Company", PStr name) :: ("Ticker", PStr ticker)
                 :: ("Quarter", PStr (quarter_label col)) :: ("Year", year col)
                 :: ("Date", PStr date) :: rest ->
             exists y m d,
               col = Stamp y m d /\
               get "Company" r = Some (PStr name) /\
               get "Ticker" r = Some (PStr ticker) /\
               get "Year" r = Some (PInt y) /\
               get "Quarter" r = Some (PStr (quarter_label (Stamp y m d))) /\
               get "Date" r =
                 Some (PStr (str y ++ "-" ++ zfill 2 (str m) ++ "-"
                             ++ zfill 2 (str d)))).
  { intros date rest Hs ->.
    apply strftime_stamp in Hs. destruct Hs as (y & m & d & -> & ->).
    exists y, m, d. repeat split. }
  destruct v as [|s]; [|destruct s]; simpl; intros H.
  - destruct aux. apply real_record_fields in H. decompose record H.
    eapply Hgen; eassumption.
  - apply tech_record_fields in H. decompose record H.
    eapply Hgen; eassumption.
  - apply healthcare_record_fields in H. decompose record H.
    eapply Hgen; eassumption.
  - apply financial_record_fields in H. decompose record H.
    eapply Hgen; eassumption.
  - apply consumer_record_fields in H. decompose record H.
    eapply Hgen; eassumption.
  - apply energy_record_fields in H. decompose record H.
    eapply Hgen; eassumption.
Qed.

Lemma script_record_dated v ticker name income aux col r :
  script_record v ticker name income aux col = Ok r -> dated col.
Proof.
  assert (Hgen : forall date, strftime col = Ok date -> dated col).
  { intros date Hs. destruct col as [y m d|]; [|discriminate Hs].
    exists y, m, d. split; [reflexivity|].
    eapply strftime_year; eassumption. }
  destruct v as [|s]; [|destruct s]; simpl; intros H.
  - destruct aux. apply real_record_fields in H. decompose record H.
    eapply Hgen; eassumption.
  - apply tech_record_fields in H. decompose record H.
    eapply Hgen; eassumption.
  - apply healthcare_record_fields in H. decompose record H.
    eapply Hgen; eassumption.
  - apply financial_record_fields in H. decompose record H.
    eapply Hgen; eassumption.
  - apply consumer_record_fields in H. decompose record H.
    eapply Hgen; eassumption.
  - apply energy_record_fields in H. decompose record H.
    eapply Hgen; eassumption.
Qed.

(** X4.  Every record of a run, in all six loops, is labelled by a pair
    of the mapping and by a dated period of that ticker's window: its
    company and ticker are the name and the symbol of one entry of the
    mapping, the provider serves a non-empty income statement for that
    symbol, and its year, quarter and date are those of one timestamp
    among the first columns of that statement, whose year is between 1
    and 9999; the date is the year as it is, then the month and the day
    on two digits.  A column that is not a date ([NaT]), or whose year
    [strftime] cannot format, never gives a record. *)
Theorem records_carry_mapping_and_period (v : Script) (yf : Provider) (r : Row) :
  In r (script_data v yf) ->
  exists ticker name stock income y m d,
    In (ticker, name) (script_companies v) /\
    yf ticker = Ok stock /\
    quarterly_income_stmt stock = Ok (Some income) /\
    empty income = false /\
    In (Stamp y m d) (firstn (script_window v) (columns income)) /\
    1 <= y <= 9999 /\
    get "Company" r = Some (PStr name) /\
    get "Ticker" r = Some (PStr ticker) /\
    get "Year" r = Some (PInt y) /\
    get "Quarter" r = Some (PStr (quarter_label (Stamp y m d))) /\
    get "Date" r =
      Some (PStr (str y ++ "-" ++ zfill 2 (str m) ++ "-" ++ zfill 2 (str d))).
Proof.
  intros Hr. apply script_data_inv in Hr.
  destruct Hr as (ticker & name & income & aux & col & Hc & Hf & He & Hcol & Hb).
  apply script_fetch_income in Hf. destruct Hf as (stock & Hy & Hi).
  pose proof (script_record_dated v _ _ _ _ _ _ Hb) as Hd.
  apply script_record_identity in Hb.
  destruct Hb as (y & m & d & -> & H1 & H2 & H3 & H4 & H5).
  destruct Hd as (y' & m' & d' & [= <- <- <-] & Hyear).
  exists ticker, name, stock, income, y, m, d.
  repeat split; try assumption; lia.
Qed.

Lemma records_carry_mapping_and_period_witness :
  exists r,
    In r (script_data (MultiSector Energy) Sample.yf_every) /\
    get "Date" r = Some (PStr "2024-11-30") /\
    exists ticker name stock income y m d,
      In (ticker, name) (script_companies (MultiSector Energy)) /\
      Sample.yf_every ticker = Ok stock /\
      quarterly_income_stmt stock = Ok (Some income) /\
      empty income = false /\
      In (Stamp y m d)
        (firstn (script_window (MultiSector Energy)) (columns income)) /\
      1 <= y <= 9999 /\
      get "Company" r = Some (PStr name) /\
      get "Ticker" r = Some (PStr ticker) /\
      get "Year" r = Some (PInt y) /\
      get "Quarter" r = Some (PStr (quarter_label (Stamp y m d))) /\
      get "Date" r =
        Some (PStr (str y ++ "-" ++ zfill 2 (str m) ++ "-" ++ zfill 2 (str d))).
Proof.
  pose (r := nth 0 (script_data (MultiSector Energy) Sample.yf_every) []).
  assert (Hin : In r (script_data (MultiSector Energy) Sample.yf_every))
    by (vm_compute; left; reflexivity).
  exists r. split; [exact Hin|]. split; [vm_compute; reflexivity|].
  exact (records_carry_mapping_and_period (MultiSector Energy)
           Sample.yf_every r Hin).
Defined.

(** The date of a period of year 999 has a year of three digits; a
    period of year 10000 gives no record. *)
Example dates_outside_four_digits :
  (exists r,
      energy_record "XOM" "Exxon Mobil"
        (mkDataFrame [] [Stamp 999 5 31] []) tt (Stamp 999 5 31) = Ok r /\
      get "Date" r = Some (PStr "999-05-31")) /\
  energy_record "XOM" "Exxon Mobil"
    (mkDataFrame [] [Stamp 10000 1 1] []) tt (Stamp 10000 1 1)
  = Raise NotImplementedError.
Proof.
  split; [eexists; split; vm_compute; reflexivity|vm_compute; reflexivity].
Qed.

(** ** The columns of the single-list file *)

Lemma real_record_keys ticker name income aux col r :
  RealData.record ticker name income aux col = Ok r ->
  keys r = single_list_fields.
Proof.
  destruct aux. intros H.
  apply real_record_fields in H. decompose record H. now subst r.
Qed.

Lemma single_list_fields_NoDup : NoDup single_list_fields.
Proof.
  unfold single_list_fields.
  repeat (constructor; [not_a_field|]). constructor.
Qed.

(** X5.  Every record the single-list script accumulates, and so every
    row it writes, has the same seventeen keys, in the order of the dict
    literal and without repetition: the columns of the frame and the
    header of the file do not depend on the data.  A key outside the
    list, such as the R&D fields of the multi-sector script, is in no
    record. *)
Theorem single_list_records_have_fixed_fields (yf : Provider) (r : Row) :
  In r (RealData.all_data yf) \/
  (exists out, RealData.main yf = Ok out /\ In r out) ->
  keys r = single_list_fields /\
  List.length (keys r) = 17%nat /\
  NoDup (keys r) /\
  (forall key, ~ In key single_list_fields -> get key r = None) /\
  get "RD_Expense" r = None /\
  get "RD_Intensity" r = None.
Proof.
  intros Hr.
  assert (Hin : In r (RealData.all_data yf)).
  { destruct Hr as [Hr|(out & Hm & Hr)]; [exact Hr|].
    unfold RealData.main, sort_values in Hm.
    destruct (RealData.all_data yf) as [|r0 l] eqn:E; cbn [bind] in Hm;
      [discriminate|].
    injection Hm as <-.
    eapply Permutation_in; [|exact Hr].
    apply Permutation_sym, (stable_sort_perm (r0 :: l)). }
  apply (script_data_inv SingleList) in Hin.
  destruct Hin as (ticker & name & income & aux & col & _ & _ & _ & _ & Hb).
  simpl in Hb. apply real_record_keys in Hb.
  assert (Hout : forall key, ~ In key single_list_fields -> get key r = None)
    by (intros key Hk; apply get_None_iff; now rewrite Hb).
  split; [exact Hb|]. rewrite Hb.
  split; [reflexivity|]. split; [exact single_list_fields_NoDup|].
  split; [exact Hout|].
  split; apply Hout; not_a_field.
Qed.

Lemma single_list_records_have_fixed_fields_witness :
  exists r,
    In r (RealData.all_data Sample.yf) /\
    keys r = single_list_fields /\ get "RD_Expense" r = None.
Proof.
  pose (r := nth 0 (RealData.all_data Sample.yf) []).
  assert (Hin : In r (RealData.all_data Sample.yf))
    by (vm_compute; left; reflexivity).
  destruct (single_list_records_have_fixed_fields Sample.yf r (or_introl Hin))
    as (Hk & _ & _ & _ & Hrd & _).
  exists r. split; [exact Hin|]. split; [exact Hk|exact Hrd].
Defined.

(** ** When a period gives a record *)

Lemma positions_length {A : Type} (eqb : A -> A -> bool) (x : A) (l : list A) :
  List.length (positions eqb x l) = List.length (filter (eqb x) l).
Proof.
  induction l as [|y l IH]; simpl; [reflexivity|].
  destruct (eqb x y); simpl; rewrite length_map; now rewrite IH.
Qed.

(** A lookup gives a cell exactly when both labels are there once. *)
Lemma loc_once df label col :
  (exists x, loc df label col = Ok x) <->
  List.length (filter (String.eqb label) (index df)) = 1%nat /\
  List.length (filter (Timestamp_eqb col) (columns df)) = 1%nat.
Proof.
  unfold loc.
  rewrite <- (positions_length String.eqb label (index df)).
  rewrite <- (positions_length Timestamp_eqb col (columns df)).
  destruct (positions String.eqb label (index df)) as [|i [|i' p]];
    destruct (positions Timestamp_eqb col (columns df)) as [|j [|j' q]];
    simpl; split;
    try (intros [x Hx]; discriminate Hx);
    try (intros [H1 H2]; discriminate).
  - intros _. split; reflexivity.
  - intros _. eexists. reflexivity.
Qed.

Lemma item_read_once df label col :
  (exists v, item df label col = Ok v) <-> read_once df label col.
Proof.
  unfold item, read_once.
  destruct (in_index label df).
  - split.
    + intros [v Hv] _. apply loc_once.
      destruct (loc df label col) as [x|e]; [now exists x|discriminate].
    + intros H. destruct (proj2 (loc_once df label col) (H eq_refl)) as [x ->].
      eexists. reflexivity.
  - split; [discriminate|now exists None].
Qed.

Lemma item_cell_once df label col :
  read_once df label col -> item df label col = Ok (cell df label col).
Proof.
  intros H. apply item_read_once in H. destruct H as [v Hv].
  unfold cell. now rewrite Hv.
Qed.

Lemma item_opt_read_once table label col :
  (exists v, item_opt table label col = Ok v) <-> read_once_opt table label col.
Proof.
  destruct table as [t|]; simpl; [apply item_read_once|].
  split; [auto|now exists None].
Qed.

Lemma item_opt_cell_once table label col :
  read_once_opt table label col ->
  item_opt table label col = Ok (cell_opt table label col).
Proof.
  intros H. apply item_opt_read_once in H. destruct H as [v Hv].
  unfold cell_opt. now rewrite Hv.
Qed.

Lemma strftime_dated col :
  (exists date, strftime col = Ok date) <-> dated col.
Proof.
  unfold dated. split.
  - intros [date Hs]. destruct col as [y m d|]; [|discriminate Hs].
    exists y, m, d. split; [reflexivity|].
    eapply strftime_year; eassumption.
  - intros (y & m & d & -> & Hy). cbn [strftime].
    replace ((1 <=? y) && (y <=? 9999)) with true; [eexists; reflexivity|].
    symmetry. apply andb_true_iff. split; apply Z.leb_le; lia.
Qed.

Lemma ebitda_of_read_once income col operating_income :
  (exists e, RealData.ebitda_of income col operating_income = Ok e) <->
  read_once income "EBITDA" col.
Proof.
  rewrite <- item_read_once. unfold RealData.ebitda_of, item.
  destruct (in_index "EBITDA" income).
  - destruct (loc income "EBITDA" col) as [x|e]; simpl.
    + split; intros _; eexists; reflexivity.
    + split; intros [v Hv]; discriminate.
  - split; intros _; [now exists None|].
    destruct operating_income; eexists; reflexivity.
Qed.

Lemma ebitda_of_cell_once income col :
  read_once income "EBITDA" col ->
  RealData.ebitda_of income col (cell income "Operating Income" col)
    = Ok (ebitda_source income col).
Proof.
  intros H.
  apply (ebitda_of_read_once income col (cell income "Operating Income" col))
    in H.
  destruct H as [e He]. rewrite He. f_equal.
  now apply ebitda_of_source.
Qed.

Lemma int_or_none_not_infinite src :
  (exists f, int_or_none src = Ok f) <-> not_infinite src.
Proof.
  unfold int_or_none, not_infinite, notna.
  destruct src as [[s|s| |s m e]|]; simpl.
  - split; [discriminate|now exists (PInt 0)].
  - split; [intros [f Hf]; discriminate|].
    intros H. exfalso. now apply (H s).
  - split; [discriminate|now exists PNone].
  - split; [discriminate|eexists; reflexivity].
  - split; [discriminate|now exists PNone].
Qed.

(** A produced record proves that no value read was infinite. *)
Lemma script_record_not_infinite v ticker name income aux col r :
  script_record v ticker name income aux col = Ok r ->
  forall key src,
    In (key, src) (raw_sources v income aux col) -> not_infinite src.
Proof.
  intros Hb key src Hin s ->.
  pose proof (script_record_raw v _ _ _ _ _ _ Hb key _ Hin) as Hraw.
  simpl in Hraw. destruct Hraw as [z [[] _]].
Qed.

(** Pick the entry of a literal table of sources. *)
Ltac in_table :=
  cbn [raw_sources In fst snd];
  repeat (first [left; reflexivity | right]).

(** Run the lookups of a record whose rows can be read. *)
Ltac run_items Hread :=
  repeat match goal with
    | |- context [item ?df ?label ?col] =>
        rewrite (item_cell_once df label col)
          by (apply Hread; cbn [income_labels In]; tauto);
        cbn [bind]
    end.

(** Run the conversions of a record whose sources are not infinite. *)
Ltac run_ints Hfin :=
  repeat match goal with
    | |- context [int_or_none ?src] =>
        let f := fresh "f" in
        let Hf := fresh "Hf" in
        destruct (proj2 (int_or_none_not_infinite src)) as [f Hf];
        [eapply Hfin; in_table | rewrite Hf; cbn [bind]]
    end.

(** The rows a successful period looked up were read. *)
Ltac rows_read Hb :=
  let label := fresh "label" in
  let Hin := fresh "Hin" in
  cbv zeta in Hb; cbn [fst snd] in Hb; bind_inv Hb;
  intros label Hin; cbn [income_labels In] in Hin;
  repeat (destruct Hin as [<-|Hin];
          [first [ solve [apply item_read_once; eauto]
                 | solve [eapply (proj1 (ebitda_of_read_once _ _ _));
                          eexists; eassumption] ]|]);
  contradiction.

(** X6.  In every section of the multi-sector script, a period gives a
    record if and only if its column is a timestamp whose year is
    between 1 and 9999, every row the section looks up can be read at
    the period (the row, when the table has it, occurs once in the
    index, and the period once among the columns), and none of the
    line items read is infinite.  Missing rows and NaN cells do not make
    a period fail; a repeated label, a year that [strftime] cannot
    format and an infinite cell do, and the whole period is dropped. *)
Theorem sector_period_succeeds_iff
    (s : Sector) (ticker name : string) (income : DataFrame) (col : Timestamp) :
  (exists r, sector_record s ticker name income tt col = Ok r) <->
  dated col /\
  (forall label, In label (income_labels (MultiSector s)) ->
                 read_once income label col) /\
  (forall key src,
      In (key, src) (raw_sources (MultiSector s) income tt col) ->
      not_infinite src).
Proof.
  split.
  - intros [r Hb]. split; [|split].
    + exact (script_record_dated (MultiSector s) _ _ _ _ _ _ Hb).
    + destruct s; simpl in Hb;
        unfold tech_record, healthcare_record, financial_record,
          consumer_record, energy_record in Hb;
        rows_read Hb.
    + exact (script_record_not_infinite (MultiSector s) _ _ _ _ _ _ Hb).
  - intros (Hdate & Hread & Hfin).
    apply strftime_dated in Hdate. destruct Hdate as [date Hdate].
    destruct s; simpl;
      unfold tech_record, healthcare_record, financial_record,
        consumer_record, energy_record;
      cbv zeta; run_items Hread; rewrite Hdate; cbn [bind];
      run_ints Hfin; eexists; reflexivity.
Qed.

Lemma sector_period_succeeds_iff_witness :
  ~ (exists r, sector_record Financial "JPM" "JPMorgan Chase"
                 Sample.income_inf tt Sample.may = Ok r) /\
  ~ (exists r, sector_record Financial "JPM" "JPMorgan Chase"
                 income_repeated tt Sample.nov = Ok r) /\
  (exists r, sector_record Financial "JPM" "JPMorgan Chase"
               income_repeated tt Sample.may = Ok r).
Proof.
  split; [|split].
  - intros H.
    apply (sector_period_succeeds_iff Financial) in H.
    destruct H as (_ & _ & H).
    apply (H "Revenue" (Some inf)) with (s := false);
      [vm_compute; left; reflexivity|reflexivity].
  - intros H.
    apply (sector_period_succeeds_iff Financial) in H.
    destruct H as (_ & H & _).
    specialize (H "Total Revenue" ltac:(simpl; auto) eq_refl).
    destruct H as [_ H]. vm_compute in H. discriminate H.
  - apply (sector_period_succeeds_iff Financial).
    split; [|split].
    + exists 2024, 5, 31. split; [reflexivity|lia].
    + intros label Hin. cbn [income_labels In] in Hin.
      destruct Hin as [<-|[<-|[<-|[]]]]; intros Hi; vm_compute in Hi;
        first [discriminate Hi | split; vm_compute; reflexivity].
    + intros key src Hin s. vm_compute in Hin.
      repeat (destruct Hin as [Hin|Hin];
              [injection Hin as <- <-; discriminate|]).
      contradiction.
Defined.

(** X7.  In the single-list script, a period gives a record if and only
    if its column is a timestamp whose year is between 1 and 9999, every
    row looked up in the income statement, the balance sheet and the
    cash-flow table can be read at the period (the row, when the table
    is there and has it, occurs once in the index, and the period once
    among the columns), and none of the values read is infinite.  A
    side table that lacks the period makes the lookup raise a KeyError
    and the whole period is dropped, although the income statement has
    it. *)
Theorem single_list_period_succeeds_iff
    (ticker name : string) (income : DataFrame)
    (balance cashflow : option DataFrame) (col : Timestamp) :
  (exists r, RealData.record ticker name income (balance, cashflow) col = Ok r)
  <->
  dated col /\
  (forall label, In label (income_labels SingleList) ->
                 read_once income label col) /\
  read_once_opt balance "Total Assets" col /\
  read_once_opt balance "Total Debt" col /\
  read_once_opt cashflow "Operating Cash Flow" col /\
  read_once_opt cashflow "Free Cash Flow" col /\
  (forall key src,
      In (key, src) (raw_sources SingleList income (balance, cashflow) col) ->
      not_infinite src).
Proof.
  split.
  - intros [r Hb].
    split; [|split; [|split; [|split; [|split; [|split]]]]].
    + exact (script_record_dated SingleList _ _ _ _ _ _ Hb).
    + unfold RealData.record in Hb. rows_read Hb.
    + unfold RealData.record in Hb. cbv zeta in Hb. cbn [fst snd] in Hb.
      bind_inv Hb. apply item_opt_read_once. eauto.
    + unfold RealData.record in Hb. cbv zeta in Hb. cbn [fst snd] in Hb.
      bind_inv Hb. apply item_opt_read_once. eauto.
    + unfold RealData.record in Hb. cbv zeta in Hb. cbn [fst snd] in Hb.
      bind_inv Hb. apply item_opt_read_once. eauto.
    + unfold RealData.record in Hb. cbv zeta in Hb. cbn [fst snd] in Hb.
      bind_inv Hb. apply item_opt_read_once. eauto.
    + exact (script_record_not_infinite SingleList _ _ _ _ _ _ Hb).
  - intros (Hdate & Hread & Hta & Htd & Hoc & Hfc & Hfin).
    apply strftime_dated in Hdate. destruct Hdate as [date Hdate].
    unfold RealData.record. cbv zeta. cbn [fst snd].
    run_items Hread.
    rewrite (ebitda_of_cell_once income col)
      by (apply Hread; cbn [income_labels In]; tauto).
    cbn [bind].
    rewrite (item_opt_cell_once _ _ _ Hta), (item_opt_cell_once _ _ _ Htd),
      (item_opt_cell_once _ _ _ Hoc), (item_opt_cell_once _ _ _ Hfc).
    cbn [bind]. rewrite Hdate. cbn [bind].
    run_ints Hfin. eexists. reflexivity.
Qed.

Lemma single_list_period_succeeds_iff_witness :
  ~ (exists r, RealData.record "AAPL" "Apple Inc" Sample.income
                 (Some balance_nov, None) Sample.may = Ok r) /\
  (exists r, RealData.record "AAPL" "Apple Inc" Sample.income
               (Some balance_nov, None) Sample.nov = Ok r).
Proof.
  split.
  - intros H.
    apply single_list_period_succeeds_iff in H.
    destruct H as (_ & _ & Hk & _).
    destruct (Hk eq_refl) as [_ H]. vm_compute in H. discriminate H.
  - apply single_list_period_succeeds_iff.
    split; [exists 2024, 11, 30; split; [reflexivity|lia]|].
    split.
    { intros label Hin. cbn [income_labels In] in Hin.
      destruct Hin as [<-|[<-|[<-|[<-|[<-|[]]]]]];
        intros Hi; vm_compute in Hi;
        first [discriminate Hi | split; vm_compute; reflexivity]. }
    split; [intros _; split; vm_compute; reflexivity|].
    split; [discriminate|].
    split; [exact I|]. split; [exact I|].
    intros key src Hin s. vm_compute in Hin.
    repeat (destruct Hin as [Hin|Hin]; [injection Hin as <- <-; discriminate|]).
    contradiction.
Defined.

(** ** When a ratio is computed *)

(** X8.  The records of a run are exactly the records of the periods
    the provider serves, and in the record of any period the value of a
    ratio field is decided by the truth test [revenue and numerator]:
    the field is [None] as soon as the numerator or the revenue has no
    row or is zero, so that a zero profit gives no margin rather than a
    margin of 0.0; when both cells are there and not zero the field is
    their quotient, except that the single-list script stores [None] in
    place of a NaN quotient. *)
Theorem ratio_follows_truth_test (v : Script) (yf : Provider) :
  (forall r,
      In r (script_data v yf) <->
      exists ticker name income aux col,
        served v yf ticker name income aux col /\
        script_record v ticker name income aux col = Ok r) /\
  (forall ticker name income aux col r,
      script_record v ticker name income aux col = Ok r ->
      forall key num,
        In (key, num) (ratio_fields v) ->
        (missing_or_zero (cell income num col) \/
         missing_or_zero (cell income "Total Revenue" col) ->
         get key r = Some PNone) /\
        (forall n d,
            cell income num col = Some n ->
            cell income "Total Revenue" col = Some d ->
            iszero n = false -> iszero d = false ->
            match v with
            | SingleList =>
                get key r = Some (if isnan (truediv n d) then PNone
                                  else PFloat (truediv n d))
            | MultiSector _ => get key r = Some (PFloat (truediv n d))
            end)).
Proof.
  split.
  - intros r. apply script_data_served.
  - intros ticker name income aux col r Hb key num Hin.
    exact (script_record_ratio_exact v _ _ _ _ _ _ Hb key num Hin).
Qed.

Lemma ratio_follows_truth_test_witness :
  exists r,
    sector_record Consumer "AMZN" "Amazon.com Inc" income_zero_profit tt
      Sample.nov = Ok r /\
    get "Gross_Margin" r = Some PNone /\
    get "Net_Margin" r
      = Some (PFloat (truediv (float_of_Z 10) (float_of_Z 100))).
Proof.
  pose (yf := fun _ : string =>
                Ok (mkTicker (Ok (Some income_zero_profit)) (Ok None)
                      (Ok None))).
  pose (r := nth 0 (consumer_data yf) []).
  assert (Hb : script_record (MultiSector Consumer) "AMZN" "Amazon.com Inc"
                 income_zero_profit tt Sample.nov = Ok r)
    by (vm_compute; reflexivity).
  destruct (ratio_follows_truth_test (MultiSector Consumer) yf) as [_ Hrec].
  exists r. split; [exact Hb|]. split.
  - destruct (Hrec _ _ _ _ _ _ Hb "Gross_Margin" "Gross Profit") as [Hnone _];
      [simpl; auto|].
    apply Hnone. left. vm_compute. reflexivity.
  - destruct (Hrec _ _ _ _ _ _ Hb "Net_Margin" "Net Income") as [_ Hquot];
      [simpl; auto|].
    apply Hquot; vm_compute; reflexivity.
Defined.

(** ** No NaN in the single-list records *)

Lemma get_In key (r : Row) v : get key r = Some v -> In (key, v) r.
Proof.
  induction r as [|[k w] r IH]; simpl; [discriminate|].
  destruct (String.eqb_spec key k) as [->|Hne].
  - intros [= ->]. now left.
  - intros H. right. now apply IH.
Qed.

Lemma int_or_none_not_float src f x :
  int_or_none src = Ok f -> f <> PFloat x.
Proof.
  unfold int_or_none.
  destruct (notna src); [|intros [= <-]; discriminate].
  destruct src as [y|]; [|intros [= <-]; discriminate].
  destruct (int y); simpl; [|discriminate].
  intros [= <-]. discriminate.
Qed.

Lemma float_or_none_not_nan m x :
  float_or_none m = PFloat x -> isnan x = false.
Proof.
  unfold float_or_none, notna.
  destruct m as [y|]; [|discriminate].
  destruct (isnan y) eqn:E; simpl; [discriminate|].
  now intros [= <-].
Qed.

(** X9.  No field of a record of the single-list script is a NaN: what
    is missing is always [None].  The [pd.notna] test that guards every
    conversion, ratios included, sees to it; the multi-sector script
    converts its ratios without that test and can store a NaN. *)
Theorem single_list_fields_never_nan (yf : Provider) (r : Row)
    (key : string) (x : float64) :
  In r (RealData.all_data yf) ->
  get key r = Some (PFloat x) ->
  isnan x = false /\
  In key ["Gross_Margin"; "Operating_Margin"; "Net_Margin"].
Proof.
  intros Hr Hget.
  apply (script_data_inv SingleList) in Hr.
  destruct Hr as (ticker & name & income & aux & col & _ & _ & _ & _ & Hb).
  simpl in Hb. destruct aux as [balance cashflow].
  pose proof (script_record_identity SingleList _ _ _ _ _ _ Hb) as Hid.
  destruct Hid as (y & m & d & -> & _).
  apply real_record_fields in Hb.
  destruct Hb as (date & ebitda & f1 & f2 & f3 & f4 & f5 & f6 & f7 & f8 & f9
                  & _ & _ & H1 & H2 & H3 & H4 & H5 & H6 & H7 & H8 & H9 & ->).
  apply get_In in Hget. cbn [In] in Hget.
  repeat (destruct Hget as [Hget|Hget];
          [injection Hget as <- Hv;
           first [ discriminate Hv
                 | subst;
                   match goal with
                   | H : int_or_none _ = Ok (PFloat ?x) |- _ =>
                       exfalso;
                       exact (int_or_none_not_float _ _ x H eq_refl)
                   end
                 | split; [eapply float_or_none_not_nan; exact Hv
                          |simpl; tauto] ]
          |]).
  contradiction.
Qed.

Lemma single_list_fields_never_nan_witness :
  exists r x,
    In r (RealData.all_data Sample.yf) /\
    get "Gross_Margin" r = Some (PFloat x) /\ isnan x = false.
Proof.
  pose (r := nth 0 (RealData.all_data Sample.yf) []).
  pose (x := truediv (float_of_Z 40) (float_of_Z 100)).
  assert (Hin : In r (RealData.all_data Sample.yf))
    by (vm_compute; left; reflexivity).
  assert (Hget : get "Gross_Margin" r = Some (PFloat x))
    by (vm_compute; reflexivity).
  exists r, x. split; [exact Hin|]. split; [exact Hget|].
  exact (proj1 (single_list_fields_never_nan Sample.yf r _ x Hin Hget)).
Defined.

(** ** Integer-valued cells *)




(** ** The order of the written rows, by date *)

Lemma StronglySorted_nth {A : Type} (R : A -> A -> Prop) (l : list A) :
  StronglySorted R l ->
  forall i j a b,
    (i < j)%nat -> nth_error l i = Some a -> nth_error l j = Some b -> R a b.
Proof.
  induction 1 as [|x l Hs IH Hall]; intros i j a b Hij Hi Hj.
  - destruct i; discriminate.
  - destruct j as [|j]; [lia|].
    destruct i as [|i]; simpl in Hi, Hj.
    + injection Hi as <-.
      rewrite Forall_forall in Hall. apply Hall.
      eapply nth_error_In; eassumption.
    + apply (IH i j); [lia|assumption|assumption].
Qed.

Lemma quarter_label_leb y1 m1 d1 y2 m2 d2 :
  1 <= m1 <= 12 -> 1 <= m2 <= 12 ->
  String.leb (quarter_label (Stamp y1 m1 d1)) (quarter_label (Stamp y2 m2 d2))
    = true ->
  (m1 - 1) / 3 <= (m2 - 1) / 3.
Proof.
  intros H1 H2. unfold quarter_label.
  assert (Hq : forall m, 1 <= m <= 12 ->
                 (m - 1) / 3 = 0 \/ (m - 1) / 3 = 1 \/
                 (m - 1) / 3 = 2 \/ (m - 1) / 3 = 3).
  { intros m Hm.
    assert (0 <= (m - 1) / 3) by (apply Z.div_pos; lia).
    assert ((m - 1) / 3 < 4) by (apply Z.div_lt_upper_bound; lia).
    lia. }
  destruct (Hq m1 H1) as [E1|[E1|[E1|E1]]];
    destruct (Hq m2 H2) as [E2|[E2|[E2|E2]]];
    rewrite E1, E2; intros Hle; try lia;
    vm_compute in Hle; discriminate.
Qed.

(** X11.  The rows the single-list script writes are in the order of
    the company names and, within one company, in the order of the
    dates: of two rows, the earlier one has the company name that comes
    first, or the same name and an earlier year, or the same name and
    year and a quarter that is not later.  The quarter labels are
    compared as strings, which for Q1 to Q4 is the order of the
    quarters. *)
Theorem single_list_rows_in_date_order
    (yf : Provider) (out : list Row) (i j : nat) (r1 r2 : Row)
    (c1 c2 : string) (y1 m1 d1 y2 m2 d2 : Z) :
  RealData.main yf = Ok out ->
  (i < j)%nat ->
  nth_error out i = Some r1 ->
  nth_error out j = Some r2 ->
  get "Company" r1 = Some (PStr c1) ->
  get "Year" r1 = Some (PInt y1) ->
  get "Quarter" r1 = Some (PStr (quarter_label (Stamp y1 m1 d1))) ->
  get "Company" r2 = Some (PStr c2) ->
  get "Year" r2 = Some (PInt y2) ->
  get "Quarter" r2 = Some (PStr (quarter_label (Stamp y2 m2 d2))) ->
  1 <= m1 <= 12 ->
  1 <= m2 <= 12 ->
  String.compare c1 c2 = Lt \/
  (c1 = c2 /\ (y1 < y2 \/ (y1 = y2 /\ (m1 - 1) / 3 <= (m2 - 1) / 3))).
Proof.
  intros Hm Hij Hi Hj Hc1 Hy1 Hq1 Hc2 Hy2 Hq2 Hm1 Hm2.
  assert (Hs : StronglySorted row_le out).
  { unfold RealData.main, sort_values in Hm.
    destruct (RealData.all_data yf) as [|r l]; cbn [bind] in Hm;
      [discriminate|].
    injection Hm as <-.
    apply Sorted_StronglySorted; [exact row_le_trans|].
    apply (stable_sort_sorted (r :: l)). }
  pose proof (StronglySorted_nth row_le out Hs i j r1 r2 Hij Hi Hj) as Hle.
  unfold row_le, row_leb, sort_key, key_leb in Hle.
  rewrite Hc1, Hy1, Hq1, Hc2, Hy2, Hq2 in Hle. cbn [fst snd] in Hle.
  destruct (String.compare c1 c2) eqn:Ec; [|now left|discriminate].
  right. apply String.compare_eq_iff in Ec. split; [exact Ec|].
  destruct (Z.compare_spec y1 y2) as [Ey|Ey|Ey]; [|now left|discriminate].
  right. split; [exact Ey|].
  now apply (quarter_label_leb y1 m1 d1 y2 m2 d2).
Qed.

Lemma single_list_rows_in_date_order_witness :
  exists out r1 r2,
    RealData.main Sample.yf = Ok out /\
    nth_error out 0 = Some r1 /\
    nth_error out 2 = Some r2 /\
    get "Quarter" r1 = Some (PStr (quarter_label (Stamp 2024 2 29))) /\
    get "Quarter" r2 = Some (PStr (quarter_label (Stamp 2024 11 30))) /\
    (String.compare "Apple Inc" "Apple Inc" = Lt \/
     ("Apple Inc" = "Apple Inc" /\
      (2024 < 2024 \/ (2024 = 2024 /\ (2 - 1) / 3 <= (11 - 1) / 3)))).
Proof.
  pose (out := stable_sort (RealData.all_data Sample.yf)).
  pose (r1 := nth 0 out []).
  pose (r2 := nth 2 out []).
  assert (Hm : RealData.main Sample.yf = Ok out) by (vm_compute; reflexivity).
  assert (H1 : nth_error out 0 = Some r1) by (vm_compute; reflexivity).
  assert (H2 : nth_error out 2 = Some r2) by (vm_compute; reflexivity).
  assert (Hq1 : get "Quarter" r1
                = Some (PStr (quarter_label (Stamp 2024 2 29))))
    by (vm_compute; reflexivity).
  assert (Hq2 : get "Quarter" r2
                = Some (PStr (quarter_label (Stamp 2024 11 30))))
    by (vm_compute; reflexivity).
  exists out, r1, r2.
  repeat (split; [assumption|]).
  apply (single_list_rows_in_date_order Sample.yf out 0 2 r1 r2
           "Apple Inc" "Apple Inc" 2024 2 29 2024 11 30 Hm);
    try assumption; try lia; vm_compute; reflexivity.
Defined.

(** ** The records of a run, in order *)

Lemma flat_map_produced_all_ok {Aux : Type}
    (build : string -> string -> DataFrame -> Aux -> Timestamp -> result Row)
    ticker name income aux cols :
  (forall col, In col cols -> exists r, build ticker name income aux col = Ok r) ->
  List.length (flat_map (produced build ticker name income aux) cols)
  = List.length cols.
Proof.
  induction cols as [|col cols IH]; intros H; simpl; [reflexivity|].
  rewrite length_app, IH by (intros c Hc; apply H; now right).
  destruct (H col (or_introl eq_refl)) as [r Hr].
  unfold produced. now rewrite Hr.
Qed.

(** X12.  The records a run accumulates are, ticker after ticker in the
    order of the mapping, the records of the periods of the ticker's
    window that did not fail, in the order of the provider's columns,
    which is never changed.  A ticker with a non-empty income statement
    whose window periods all succeed gives as many records as the
    window has periods: the number of its columns, capped by the window
    size. *)
Theorem records_follow_mapping_and_columns
    (v : Script) (yf : Provider) (ticker name : string)
    (income : DataFrame) (aux : aux_of v) :
  script_fetch v yf ticker = Ok (Some income, aux) ->
  empty income = false ->
  script_data v yf =
    flat_map
      (fun c => for_ticker (script_window v) (script_fetch v yf)
                  (script_record v) (fst c) (snd c) [])
      (script_companies v) /\
  for_ticker (script_window v) (script_fetch v yf) (script_record v)
    ticker name [] =
    flat_map (produced (script_record v) ticker name income aux)
      (firstn (script_window v) (columns income)) /\
  ((forall col, In col (firstn (script_window v) (columns income)) ->
       exists r, script_record v ticker name income aux col = Ok r) ->
   List.length
     (for_ticker (script_window v) (script_fetch v yf) (script_record v)
        ticker name [])
   = Nat.min (script_window v) (List.length (columns income))).
Proof.
  intros Hf He.
  assert (Ht : for_ticker (script_window v) (script_fetch v yf)
                 (script_record v) ticker name [] =
               flat_map (produced (script_record v) ticker name income aux)
                 (firstn (script_window v) (columns income))).
  { unfold for_ticker. rewrite Hf, He.
    now rewrite for_periods_flat_map. }
  split; [|split].
  - rewrite script_data_loop. now rewrite for_tickers_flat_map.
  - exact Ht.
  - intros Hall. rewrite Ht.
    rewrite (flat_map_produced_all_ok _ _ _ _ _ _ Hall).
    apply length_firstn.
Qed.

Lemma records_follow_mapping_and_columns_witness :
  script_fetch (MultiSector Energy) Sample.yf_every "XOM"
    = Ok (Some Sample.income, tt) /\
  empty Sample.income = false /\
  List.length
    (for_ticker (script_window (MultiSector Energy))
       (script_fetch (MultiSector Energy) Sample.yf_every)
       (script_record (MultiSector Energy)) "XOM" "Exxon Mobil" [])
  = Nat.min 6 3.
Proof.
  assert (Hf : script_fetch (MultiSector Energy) Sample.yf_every "XOM"
               = Ok (Some Sample.income, tt)) by reflexivity.
  assert (He : empty Sample.income = false) by reflexivity.
  split; [exact Hf|]. split; [exact He|].
  destruct (records_follow_mapping_and_columns (MultiSector Energy)
              Sample.yf_every "XOM" "Exxon Mobil" Sample.income tt Hf He)
    as (_ & _ & H).
  apply H. intros col Hcol. vm_compute in Hcol.
  destruct Hcol as [<-|[<-|[<-|[]]]]; eexists; vm_compute; reflexivity.
Defined.

(** ** The summary of the single-list script *)

Lemma frame_columns_uniform (fields : list string) (df : list Row) :
  df <> [] ->
  (forall r, In r df -> keys r = fields) ->
  NoDup fields ->
  Summary.frame_columns df = fields.
Proof.
  intros Hne Hkeys _.
  assert (Hself : filter (fun k => negb (existsb (String.eqb k) fields)) fields
                  = []).
  { assert (H : forall l, incl l fields ->
                  filter (fun k => negb (existsb (String.eqb k) fields)) l = []).
    { induction l as [|k l IH]; intros Hl; simpl; [reflexivity|].
      assert (Hk : existsb (String.eqb k) fields = true).
      { apply existsb_exists. exists k.
        split; [apply Hl; now left|apply String.eqb_refl]. }
      rewrite Hk. simpl. apply IH. intros x Hx. apply Hl. now right. }
    apply H, incl_refl. }
  assert (Hfold : forall l,
             (forall r, In r l -> keys r = fields) ->
             fold_left
               (fun (cols : list string) (r : Row) =>
                  (cols ++ filter (fun k => negb (existsb (String.eqb k) cols))
                             (keys r))%list)
               l fields = fields).
  { induction l as [|r l IH]; intros Hl; simpl; [reflexivity|].
    rewrite (Hl r (or_introl eq_refl)), Hself, app_nil_r.
    apply IH. intros x Hx. apply Hl. now right. }
  unfold Summary.frame_columns.
  destruct df as [|r df]; [contradiction|]. cbn [fold_left app].
  rewrite (Hkeys r (or_introl eq_refl)).
  assert (Hall : forall l : list string,
             filter (fun k => negb (existsb (String.eqb k) [])) l = l).
  { induction l as [|k l IH]; [reflexivity|].
    simpl. f_equal. exact IH. }
  rewrite Hall. apply Hfold. intros x Hx. apply Hkeys. now right.
Qed.

Lemma filter_cons_false {A : Type} (f : A -> bool) (a : A) (l : list A) :
  f a = false -> filter f (a :: l) = filter f l.
Proof. intros H. cbn [filter]. now rewrite H. Qed.

Lemma real_record_missing_count ticker name income aux col r :
  RealData.record ticker name income aux col = Ok r ->
  (List.length (filter (fun c => isna (Summary.frame_cell r c))
                  single_list_fields) <= 12)%nat.
Proof.
  intros Hb.
  pose proof (script_record_identity SingleList _ _ _ _ _ _ Hb) as Hid.
  destruct Hid as (y & m & d & -> & H1 & H2 & H3 & H4 & H5).
  unfold single_list_fields.
  rewrite filter_cons_false by (unfold Summary.frame_cell; now rewrite H1).
  rewrite filter_cons_false by (unfold Summary.frame_cell; now rewrite H2).
  rewrite filter_cons_false by (unfold Summary.frame_cell; now rewrite H4).
  rewrite filter_cons_false by (unfold Summary.frame_cell; now rewrite H3).
  rewrite filter_cons_false by (unfold Summary.frame_cell; now rewrite H5).
  match goal with
  | |- (List.length (filter ?f ?l) <= 12)%nat =>
      exact (filter_length_le f l)
  end.
Qed.

(** X13.  The summary the single-list script prints after writing the
    file counts seventeen columns whatever the data, and at most twelve
    missing values per record: the five identity fields (company,
    ticker, quarter, year, date) are never missing, so the completeness
    it reports is never below 5/17. *)
Theorem single_list_summary_bounds (yf : Provider) (out : list Row) :
  RealData.main yf = Ok out ->
  Summary.frame_columns out = single_list_fields /\
  Summary.n_columns out = 17%nat /\
  Summary.records out = List.length (RealData.all_data yf) /\
  (Summary.missing_values out <= 12 * Summary.records out)%nat.
Proof.
  intros Hm.
  assert (Hin : forall r, In r out -> In r (RealData.all_data yf)).
  { intros r Hr. unfold RealData.main, sort_values in Hm.
    destruct (RealData.all_data yf) as [|r0 l] eqn:E; cbn [bind] in Hm;
      [discriminate|].
    injection Hm as <-.
    eapply Permutation_in; [|exact Hr].
    apply Permutation_sym, (stable_sort_perm (r0 :: l)). }
  assert (Hrec : forall r, In r out ->
             exists ticker name income aux col,
               RealData.record ticker name income aux col = Ok r).
  { intros r Hr. apply Hin, (script_data_inv SingleList) in Hr.
    destruct Hr as (ticker & name & income & aux & col & _ & _ & _ & _ & Hb).
    now exists ticker, name, income, aux, col. }
  assert (Hne : out <> [] /\ List.length out = List.length (RealData.all_data yf)).
  { unfold RealData.main, sort_values in Hm.
    destruct (RealData.all_data yf) as [|r0 l] eqn:E; cbn [bind] in Hm;
      [discriminate|].
    injection Hm as <-.
    pose proof (stable_sort_perm (r0 :: l)) as Hp. split.
    - intros Hnil. cbn [stable_sort] in Hp. rewrite Hnil in Hp.
      apply Permutation_sym, Permutation_nil in Hp. discriminate.
    - symmetry. now apply Permutation_length. }
  assert (Hcols : Summary.frame_columns out = single_list_fields).
  { apply frame_columns_uniform;
      [exact (proj1 Hne)| |exact single_list_fields_NoDup].
    intros r Hr. destruct (Hrec r Hr) as (t & n & inc & aux & col & Hb).
    eapply real_record_keys; eassumption. }
  split; [exact Hcols|]. split; [|split].
  - unfold Summary.n_columns. now rewrite Hcols.
  - exact (proj2 Hne).
  - unfold Summary.missing_values, Summary.records. rewrite Hcols.
    clear Hcols Hne Hin Hm.
    induction out as [|r out IH]; [simpl; lia|].
    cbn [map list_sum List.length].
    assert (H1 : (List.length
                    (filter (fun c => isna (Summary.frame_cell r c))
                       single_list_fields) <= 12)%nat).
    { destruct (Hrec r (or_introl eq_refl)) as (t & n & inc & aux & col & Hb).
      eapply real_record_missing_count; eassumption. }
    assert (H2 := IH (fun x Hx => Hrec x (or_intror Hx))).
    match goal with
    | |- (list_sum (?a :: ?l) <= _)%nat =>
        change (list_sum (a :: l)) with (a + list_sum l)%nat
    end.
    lia.
Qed.

Lemma single_list_summary_bounds_witness :
  exists out,
    RealData.main Sample.yf = Ok out /\
    Summary.n_columns out = 17%nat /\
    (Summary.missing_values out <= 12 * Summary.records out)%nat.
Proof.
  pose (out := stable_sort (RealData.all_data Sample.yf)).
  assert (Hm : RealData.main Sample.yf = Ok out) by (vm_compute; reflexivity).
  destruct (single_list_summary_bounds Sample.yf out Hm) as (_ & Hc & _ & Hv).
  exists out. split; [exact Hm|]. split; [exact Hc|exact Hv].
Defined.

(** ** Fields that are the same *)

Lemma truncation_of_unique x z1 z2 :
  truncation_of x z1 -> truncation_of x z2 -> z1 = z2.
Proof.
  destruct x as [s|s| |s m e]; cbn [truncation_of];
    try contradiction; [congruence|].
  intros [Hs1 Hb1] [Hs2 Hb2].
  assert (Hp : 0 < 2 ^ Z.max 0 (- e)) by (apply Z.pow_pos_nonneg; lia).
  set (a := Zpos m * 2 ^ Z.max 0 e) in *.
  set (b := 2 ^ Z.max 0 (- e)) in *.
  clearbody a b.
  assert (Habs : Z.abs z1 = Z.abs z2) by nia.
  destruct s; lia.
Qed.

Lemma raw_field_functional src f1 f2 :
  raw_field src f1 -> raw_field src f2 -> f1 = f2.
Proof.
  unfold raw_field. destruct src as [x|]; [|congruence].
  destruct (isnan x); [congruence|].
  intros (z1 & H1 & ->) (z2 & H2 & ->).
  now rewrite (truncation_of_unique x z1 z2 H1 H2).
Qed.

Lemma isnan_nan x : isnan x = true -> x = nan.
Proof. destruct x; try discriminate. reflexivity. Qed.

(** X14.  The two scripts agree where they overlap: for the same
    ticker, income statement and period, the record of the single-list
    script and the record of any section of the multi-sector script
    have the same company, ticker, quarter, year and date, the same
    value in every raw line item they both carry, and the same value in
    every ratio they both carry, except that the single-list one has
    [None] where the section has a NaN. *)
Theorem scripts_agree_on_shared_fields
    (s : Sector) (ticker name : string) (income : DataFrame)
    (balance cashflow : option DataFrame) (col : Timestamp) (r1 r2 : Row) :
  RealData.record ticker name income (balance, cashflow) col = Ok r1 ->
  sector_record s ticker name income tt col = Ok r2 ->
  (forall key,
      In key ["Company"; "Ticker"; "Quarter"; "Year"; "Date"] ->
      get key r1 = get key r2) /\
  (forall key src,
      In (key, src) (raw_sources SingleList income (balance, cashflow) col) ->
      In (key, src) (raw_sources (MultiSector s) income tt col) ->
      get key r1 = get key r2) /\
  (forall key num,
      In (key, num) (ratio_fields SingleList) ->
      In (key, num) (ratio_fields (MultiSector s)) ->
      get key r1 = get key r2 \/
      (get key r1 = Some PNone /\ get key r2 = Some (PFloat nan))).
Proof.
  intros H1 H2. split; [|split].
  - pose proof (script_record_identity SingleList _ _ _ _ _ _ H1) as I1.
    pose proof (script_record_identity (MultiSector s) _ _ _ _ _ _ H2) as I2.
    destruct I1 as (y & m & d & -> & A1 & A2 & A3 & A4 & A5).
    destruct I2 as (y' & m' & d' & [= <- <- <-] & B1 & B2 & B3 & B4 & B5).
    intros key Hk. cbn [In] in Hk.
    destruct Hk as [<-|[<-|[<-|[<-|[<-|[]]]]]]; congruence.
  - intros key src Hin1 Hin2.
    apply (raw_field_functional src).
    + exact (script_record_raw SingleList _ _ _ _ _ _ H1 key src Hin1).
    + exact (script_record_raw (MultiSector s) _ _ _ _ _ _ H2 key src Hin2).
  - intros key num Hin1 Hin2.
    destruct (script_record_ratio_exact SingleList _ _ _ _ _ _ H1 key num Hin1)
      as [G1 C1].
    destruct (script_record_ratio_exact (MultiSector s) _ _ _ _ _ _ H2
                key num Hin2) as [G2 C2].
    destruct (cell income num col) as [n|] eqn:En;
      [|left; rewrite G1, G2; simpl; auto].
    destruct (cell income "Total Revenue" col) as [d|] eqn:Ed;
      [|left; rewrite G1, G2; simpl; auto].
    destruct (iszero n) eqn:Zn; [left; rewrite G1, G2; simpl; auto|].
    destruct (iszero d) eqn:Zd; [left; rewrite G1, G2; simpl; auto|].
    specialize (C1 n d eq_refl eq_refl Zn Zd).
    specialize (C2 n d eq_refl eq_refl Zn Zd).
    destruct (isnan (truediv n d)) eqn:Eq.
    + right. apply isnan_nan in Eq. rewrite Eq in C2. now split.
    + left. congruence.
Qed.

Lemma scripts_agree_on_shared_fields_witness :
  exists r1 r2,
    RealData.record "AAPL" "Apple Inc" Sample.income (None, None) Sample.may
      = Ok r1 /\
    sector_record Tech "AAPL" "Apple Inc" Sample.income tt Sample.may = Ok r2 /\
    get "Revenue" r1 = get "Revenue" r2 /\
    (get "Net_Margin" r1 = get "Net_Margin" r2 \/
     (get "Net_Margin" r1 = Some PNone /\
      get "Net_Margin" r2 = Some (PFloat nan))).
Proof.
  pose (r1 := nth 1 (RealData.all_data Sample.yf) []).
  pose (r2 := nth 1 (tech_data Sample.yf) []).
  assert (H1 : RealData.record "AAPL" "Apple Inc" Sample.income (None, None)
                 Sample.may = Ok r1) by (vm_compute; reflexivity).
  assert (H2 : sector_record Tech "AAPL" "Apple Inc" Sample.income tt
                 Sample.may = Ok r2) by (vm_compute; reflexivity).
  destruct (scripts_agree_on_shared_fields Tech _ _ _ _ _ _ _ _ H1 H2)
    as (_ & Hraw & Hratio).
  exists r1, r2. split; [exact H1|]. split; [exact H2|]. split.
  - apply (Hraw "Revenue" (cell Sample.income "Total Revenue" Sample.may));
      simpl; auto.
  - apply (Hratio "Net_Margin" "Net Income"); simpl; auto.
Defined.

(** X15.  The records of the single-list run are exactly the records of
    the periods the provider serves, and in the record of any period of
    an income statement that has no EBITDA row, the EBITDA field is a
    copy of the operating-income field: the same integer, or both
    [None]. *)
Theorem ebitda_copies_operating_income (yf : Provider) :
  (forall r,
      In r (RealData.all_data yf) <->
      exists ticker name income aux col,
        served SingleList yf ticker name income aux col /\
        RealData.record ticker name income aux col = Ok r) /\
  (forall ticker name income aux col r,
      RealData.record ticker name income aux col = Ok r ->
      in_index "EBITDA" income = false ->
      get "EBITDA" r = get "Operating_Income" r).
Proof.
  split.
  - intros r. apply (script_data_served SingleList).
  - intros ticker name income aux col r Hb Hno.
    apply (raw_field_functional (cell income "Operating Income" col)).
    + pose proof (real_record_ebitda _ _ _ _ _ _ Hb) as He.
      unfold ebitda_source in He. now rewrite Hno in He.
    + apply (script_record_raw SingleList _ _ _ _ _ _ Hb).
      simpl. tauto.
Qed.

Lemma ebitda_copies_operating_income_witness :
  exists r,
    In r (RealData.all_data yf_operating) /\
    RealData.record "AAPL" "Apple Inc" income_operating (None, None)
      Sample.nov = Ok r /\
    get "Operating_Income" r = Some (PInt 25) /\
    get "EBITDA" r = Some (PInt 25).
Proof.
  pose (r := nth 0 (RealData.all_data yf_operating) []).
  assert (Hb : RealData.record "AAPL" "Apple Inc" income_operating
                 (None, None) Sample.nov = Ok r)
    by (vm_compute; reflexivity).
  assert (Hs : served SingleList yf_operating "AAPL" "Apple Inc"
                 income_operating (None, None) Sample.nov).
  { split; [simpl; auto|]. split; [|split; [reflexivity|simpl; auto]].
    eexists. split; [reflexivity|]. split; [reflexivity|].
    split; reflexivity. }
  destruct (ebitda_copies_operating_income yf_operating) as [Hrun Hrec].
  assert (Ho : get "Operating_Income" r = Some (PInt 25))
    by (vm_compute; reflexivity).
  exists r. split.
  - apply Hrun.
    exists "AAPL", "Apple Inc", income_operating, (None, None), Sample.nov.
    split; [exact Hs|exact Hb].
  - split; [exact Hb|]. split; [exact Ho|].
    rewrite (Hrec _ _ _ _ _ _ Hb eq_refl). exact Ho.
Defined.
